(** * whisper_bridge: the streaming and batch transcription bridge

    A shallow embedding of [whisper_bridge.cpp] (the C API that the
    Flutter application reaches through dart:ffi) and the properties of
    its session state machine.

    Conventions of the embedding.
    - A C pointer that the code tests against [nullptr] is an [option];
      [None] is the null pointer.  A context is a value: a function
      that writes through [ctx] returns the context it leaves behind.
    - [int32_t], [int] and [int64_t] values are [Z]; where the code
      narrows [stream_buffer.size()] to 32 bits the wrap-around is
      written out with [cast_int32].
    - [float] values are IEEE-754 binary32 numbers, as [spec_float] with
      precision 24 and exponent bound 128.
    - The whisper.cpp library is an external collaborator: it is the
      type class [Engine].
    - Calls that leave the bridge (inference passes, segment callbacks)
      and the readings of the clock are recorded in a [world], threaded
      by the state monad [M].  A reading is a time point of
      [high_resolution_clock], in nanoseconds (its period in libstdc++,
      libc++ and MSVC); [duration_cast<milliseconds>] truncates.  A callback does not call back into the
      bridge (it would block on the mutex its caller holds).
    - Every public function holds the context mutex for its whole body,
      so the calls on one context are serialised; the embedding is the
      sequential behaviour of one call at a time.  [whisper_bridge_free]
      only releases memory and is left out. *)

From Stdlib Require Import ZArith List String Bool Lia QArith.
From Stdlib Require Import Floats.SpecFloat.
Import ListNotations.

Local Open Scope string_scope.
Local Open Scope list_scope.
Local Open Scope Z_scope.

(** ** Machine integers and floats *)

(** [static_cast<int32_t>(x)] for an unsigned [x]: reduction modulo 2^32
    into the signed range. *)
Definition cast_int32 (z : Z) : Z :=
  (z + 2147483648) mod 4294967296 - 2147483648.

Definition INT16_MIN : Z := -32768.
Definition INT16_MAX : Z := 32767.

Definition is_int16 (v : Z) : Prop := INT16_MIN <= v <= INT16_MAX.

(** binary32 *)
Definition f32_prec : Z := 24.
Definition f32_emax : Z := 128.

Definition float := spec_float.

(** [static_cast<float>(v)] for an integer [v]: round to nearest even. *)
Definition float_of_int (v : Z) : float :=
  binary_normalize f32_prec f32_emax v 0 false.

Definition float_div (x y : float) : float := SFdiv f32_prec f32_emax x y.

(** The literal [0.0f]. *)
Definition f32_zero : float := S754_zero false.

(** The rational number a finite float stands for. *)
Definition float_value (x : float) : option Q :=
  match x with
  | S754_zero _ => Some 0%Q
  | S754_finite s m e =>
      Some (inject_Z (if s then Z.neg m else Z.pos m) * Qpower 2 e)%Q
  | S754_infinity _ | S754_nan => None
  end.

(** [float_is x q]: [x] is finite and stands for exactly [q]. *)
Definition float_is (x : float) (q : Q) : Prop :=
  match float_value x with
  | Some v => (v == q)%Q
  | None => False
  end.

Definition float_isb (x : float) (q : Q) : bool :=
  match float_value x with
  | Some v => Qeq_bool v q
  | None => false
  end.

Definition sample := float.

(** ** The engine collaborator (whisper.h) *)

Inductive whisper_sampling_strategy :=
| WHISPER_SAMPLING_GREEDY
| WHISPER_SAMPLING_BEAM_SEARCH.

(** The fields of [whisper_full_params] that the bridge sets. *)
Record whisper_full_params := {
  p_strategy         : whisper_sampling_strategy;
  p_n_threads        : Z;
  p_no_context       : bool;
  p_single_segment   : bool;
  p_print_special    : bool;
  p_print_progress   : bool;
  p_print_realtime   : bool;
  p_print_timestamps : bool;
  p_translate        : bool;
  p_no_timestamps    : bool;
  p_language         : option string;
  p_detect_language  : bool;
  p_greedy_best_of   : Z
}.

Record whisper_context_params := {
  use_gpu    : bool;
  gpu_device : Z
}.

Class Engine := {
  whisper_context : Type;
  whisper_context_default_params : whisper_context_params;
  whisper_init_from_file_with_params :
    string -> whisper_context_params -> option whisper_context;
  whisper_full_default_params :
    whisper_sampling_strategy -> whisper_full_params;
  (** [whisper_full wctx params samples n_samples] returns the status
      (0 on success) and the engine state after the pass. *)
  whisper_full :
    whisper_context -> whisper_full_params -> list sample -> Z ->
    Z * whisper_context;
  whisper_full_n_segments : whisper_context -> Z;
  whisper_full_get_segment_text : whisper_context -> Z -> option string;
  whisper_full_lang_id : whisper_context -> Z;
  whisper_lang_id : string -> Z
}.

(** ** The world outside the bridge *)

(** [whisper_bridge_segment_callback] is a function pointer and
    [user_data] a [void*]: both are addresses. *)
Definition whisper_bridge_segment_callback := Z.
Definition pointer := option Z.

Inductive event :=
| EvFull (params : whisper_full_params) (samples : list sample)
         (n_samples : Z)
| EvCallback (callback : whisper_bridge_segment_callback) (text : string)
             (is_partial : Z) (user_data : pointer).

(** [w_trace] lists the events, oldest first.  [w_clock i] is the time
    point that the [i]-th call of [high_resolution_clock::now()] reads,
    in nanoseconds, and [w_ticks] counts the calls made so far. *)
Record world := {
  w_trace : list event;
  w_clock : nat -> Z;
  w_ticks : nat
}.

Definition M (A : Type) : Type := world -> A * world.

Definition ret {A} (a : A) : M A := fun w => (a, w).

Definition bind {A B} (m : M A) (k : A -> M B) : M B :=
  fun w => let (a, w') := m w in k a w'.

Declare Scope bridge_scope.
Delimit Scope bridge_scope with bridge.
Notation "x <- m ;; k" := (bind m (fun x => k))
  (at level 61, m at next level, right associativity) : bridge_scope.
Notation "m ;; k" := (bind m (fun _ => k))
  (at level 61, right associativity) : bridge_scope.
Local Open Scope bridge_scope.

Definition emit (e : event) : M unit :=
  fun w => (tt, {| w_trace := w_trace w ++ [e];
                   w_clock := w_clock w;
                   w_ticks := w_ticks w |}).

Definition now : M Z :=
  fun w => (w_clock w (w_ticks w),
            {| w_trace := w_trace w;
               w_clock := w_clock w;
               w_ticks := S (w_ticks w) |}).

(** [duration_cast<milliseconds>(d).count()] for a difference [d] of
    two time points: the whole milliseconds in [d] nanoseconds, rounded
    toward zero. *)
Definition duration_cast_ms (d : Z) : Z := Z.quot d 1000000.

(** [for (int i = 0; i < n; i++)]: the indices the loop visits. *)
Definition indices (n : Z) : list Z :=
  map Z.of_nat (seq 0 (Z.to_nat n)).

Fixpoint for_each {A} (l : list A) (body : A -> M unit) : M unit :=
  match l with
  | [] => ret tt
  | x :: l' => body x ;; for_each l' body
  end.

Definition string_empty (s : string) : bool :=
  match s with
  | EmptyString => true
  | String _ _ => false
  end.

(** ** The bridge *)

(** [whisper_bridge_result]; [text] is the content of the C string
    the result points to when the call returns. *)
Record whisper_bridge_result := {
  text        : string;
  segments    : Z;
  lang_id     : Z;
  lang_prob   : float;
  duration_ms : Z
}.

(** The [empty] result of [whisper_bridge_transcribe] and
    [whisper_bridge_stream_stop]: empty text, 0, -1, 0.0f, 0. *)
Definition empty : whisper_bridge_result :=
  {| text := EmptyString; segments := 0; lang_id := -1;
     lang_prob := f32_zero; duration_ms := 0 |}.

Section Bridge.

Context {E : Engine}.

(** [struct whisper_bridge_context], without the mutex. *)
Record whisper_bridge_context := {
  wctx                : whisper_context;
  language            : string;
  n_threads           : Z;
  streaming           : bool;
  stream_buffer       : list sample;
  stream_callback     : option whisper_bridge_segment_callback;
  stream_user_data    : pointer;
  stream_step_samples : Z;
  last_result_text    : string
}.

(** The constructor's initialiser list, with [wctx] already assigned. *)
Definition new_context (w : whisper_context) : whisper_bridge_context :=
  {| wctx := w;
     language := "auto";
     n_threads := 4;
     streaming := false;
     stream_buffer := [];
     stream_callback := None;
     stream_user_data := None;
     stream_step_samples := 16000 * 2;
     last_result_text := EmptyString |}.

(** Field assignments. *)
Definition set_wctx (c : whisper_bridge_context) (v : whisper_context) :=
  {| wctx := v; language := language c; n_threads := n_threads c;
     streaming := streaming c; stream_buffer := stream_buffer c;
     stream_callback := stream_callback c;
     stream_user_data := stream_user_data c;
     stream_step_samples := stream_step_samples c;
     last_result_text := last_result_text c |}.

Definition set_language (c : whisper_bridge_context) (v : string) :=
  {| wctx := wctx c; language := v; n_threads := n_threads c;
     streaming := streaming c; stream_buffer := stream_buffer c;
     stream_callback := stream_callback c;
     stream_user_data := stream_user_data c;
     stream_step_samples := stream_step_samples c;
     last_result_text := last_result_text c |}.

Definition set_n_threads (c : whisper_bridge_context) (v : Z) :=
  {| wctx := wctx c; language := language c; n_threads := v;
     streaming := streaming c; stream_buffer := stream_buffer c;
     stream_callback := stream_callback c;
     stream_user_data := stream_user_data c;
     stream_step_samples := stream_step_samples c;
     last_result_text := last_result_text c |}.

Definition set_streaming (c : whisper_bridge_context) (v : bool) :=
  {| wctx := wctx c; language := language c; n_threads := n_threads c;
     streaming := v; stream_buffer := stream_buffer c;
     stream_callback := stream_callback c;
     stream_user_data := stream_user_data c;
     stream_step_samples := stream_step_samples c;
     last_result_text := last_result_text c |}.

Definition set_stream_buffer (c : whisper_bridge_context)
    (v : list sample) :=
  {| wctx := wctx c; language := language c; n_threads := n_threads c;
     streaming := streaming c; stream_buffer := v;
     stream_callback := stream_callback c;
     stream_user_data := stream_user_data c;
     stream_step_samples := stream_step_samples c;
     last_result_text := last_result_text c |}.

Definition set_stream_callback (c : whisper_bridge_context)
    (cb : option whisper_bridge_segment_callback) (ud : pointer) :=
  {| wctx := wctx c; language := language c; n_threads := n_threads c;
     streaming := streaming c; stream_buffer := stream_buffer c;
     stream_callback := cb;
     stream_user_data := ud;
     stream_step_samples := stream_step_samples c;
     last_result_text := last_result_text c |}.

Definition set_last_result_text (c : whisper_bridge_context)
    (v : string) :=
  {| wctx := wctx c; language := language c; n_threads := n_threads c;
     streaming := streaming c; stream_buffer := stream_buffer c;
     stream_callback := stream_callback c;
     stream_user_data := stream_user_data c;
     stream_step_samples := stream_step_samples c;
     last_result_text := v |}.

(** *** Helpers *)

Definition make_params (ctx : whisper_bridge_context)
  : whisper_full_params :=
  let params := whisper_full_default_params WHISPER_SAMPLING_GREEDY in
  let auto := String.eqb (language ctx) "auto" in
  {| p_strategy := p_strategy params;
     p_n_threads := n_threads ctx;
     p_no_context := true;
     p_single_segment := false;
     p_print_special := false;
     p_print_progress := false;
     p_print_realtime := false;
     p_print_timestamps := false;
     p_translate := false;
     p_no_timestamps := true;
     p_language := if auto then None else Some (language ctx);
     p_detect_language := if auto then true else false;
     p_greedy_best_of := 1 |}.

(** [params.single_segment = true]. *)
Definition with_single_segment (params : whisper_full_params) :=
  {| p_strategy := p_strategy params;
     p_n_threads := p_n_threads params;
     p_no_context := p_no_context params;
     p_single_segment := true;
     p_print_special := p_print_special params;
     p_print_progress := p_print_progress params;
     p_print_realtime := p_print_realtime params;
     p_print_timestamps := p_print_timestamps params;
     p_translate := p_translate params;
     p_no_timestamps := p_no_timestamps params;
     p_language := p_language params;
     p_detect_language := p_detect_language params;
     p_greedy_best_of := p_greedy_best_of params |}.

(** One turn of the loop of [make_result] on [last_result_text]. *)
Definition append_segment (w : whisper_context) (acc : string) (i : Z)
  : string :=
  match whisper_full_get_segment_text w i with
  | Some seg_text =>
      ((if negb (string_empty acc) then acc ++ " " else acc) ++ seg_text)%string
  | None => acc
  end.

Definition make_result (ctx : whisper_bridge_context)
    (n_segments lang_id : Z) (lang_prob : float) (duration_ms : Z)
  : whisper_bridge_result * whisper_bridge_context :=
  let ctx := set_last_result_text ctx EmptyString in
  let ctx :=
    set_last_result_text ctx
      (fold_left (append_segment (wctx ctx)) (indices n_segments)
                 (last_result_text ctx)) in
  ({| text := last_result_text ctx;
      segments := n_segments;
      lang_id := lang_id;
      lang_prob := lang_prob;
      duration_ms := duration_ms |}, ctx).

(** A call of [whisper_full] on the context's engine handle. *)
Definition run_full (ctx : whisper_bridge_context)
    (params : whisper_full_params) (samples : list sample) (n : Z)
  : M (Z * whisper_bridge_context) :=
  emit (EvFull params samples n) ;;
  let (r, w) := whisper_full (wctx ctx) params samples n in
  ret (r, set_wctx ctx w).

(** The callback loop shared by the push and stop paths:
    [if (text && ctx->stream_callback) ctx->stream_callback(text, 0, ...)]. *)
Definition fire_callback (ctx : whisper_bridge_context) (i : Z) : M unit :=
  match whisper_full_get_segment_text (wctx ctx) i, stream_callback ctx with
  | Some text, Some cb => emit (EvCallback cb text 0 (stream_user_data ctx))
  | _, _ => ret tt
  end.

Definition fire_callbacks (ctx : whisper_bridge_context) (n_seg : Z)
  : M unit :=
  for_each (indices n_seg) (fire_callback ctx).

(** *** Lifecycle *)

Definition whisper_bridge_init (model_path : option string)
  : option whisper_bridge_context :=
  match model_path with
  | None => None
  | Some path =>
      let cparams :=
        {| use_gpu := true;
           gpu_device := gpu_device whisper_context_default_params |} in
      match whisper_init_from_file_with_params path cparams with
      | None => None
      | Some w => Some (new_context w)
      end
  end.

(** *** Configuration *)

Definition whisper_bridge_set_language
    (ctx : option whisper_bridge_context) (lang : option string)
  : Z * option whisper_bridge_context :=
  match ctx, lang with
  | Some c, Some l =>
      if String.eqb l "auto" then (0, Some (set_language c "auto"))
      else
        let lang_id := whisper_lang_id l in
        if lang_id <? 0 then (-1, Some c)
        else (0, Some (set_language c l))
  | _, _ => (-1, ctx)
  end.

Definition whisper_bridge_set_threads
    (ctx : option whisper_bridge_context) (n : Z)
  : option whisper_bridge_context :=
  match ctx with
  | None => None
  | Some c => Some (set_n_threads c (if 0 <? n then n else 4))
  end.

(** *** Batch transcription *)

Definition whisper_bridge_transcribe
    (ctx : option whisper_bridge_context)
    (audio_data : option (list sample)) (audio_len : Z)
  : M (whisper_bridge_result * option whisper_bridge_context) :=
  match ctx, audio_data with
  | Some c, Some data =>
      if audio_len <=? 0 then ret (empty, ctx)
      else
        start <- now ;;
        let params := make_params c in
        rc <- run_full c params data audio_len ;;
        let (r, c) := rc in
        if negb (r =? 0) then ret (empty, Some c)
        else
          stop <- now ;;
          let duration_ms := duration_cast_ms (stop - start) in
          let n_segments := whisper_full_n_segments (wctx c) in
          let lang_id := whisper_full_lang_id (wctx c) in
          let lang_prob := f32_zero in
          let (res, c) :=
            make_result c n_segments lang_id lang_prob duration_ms in
          ret (res, Some c)
  | _, _ => ret (empty, ctx)
  end.

(** *** Streaming *)

Definition whisper_bridge_stream_start
    (ctx : option whisper_bridge_context)
    (callback : option whisper_bridge_segment_callback)
    (user_data : pointer)
  : Z * option whisper_bridge_context :=
  match ctx, callback with
  | Some c, Some cb =>
      let c := set_streaming c true in
      let c := set_stream_callback c (Some cb) user_data in
      let c := set_stream_buffer c [] in
      (0, Some c)
  | _, _ => (-1, ctx)
  end.

(** [stream_buffer.size()] narrowed to [int32_t] / [int]. *)
Definition buffer_size32 (c : whisper_bridge_context) : Z :=
  cast_int32 (Z.of_nat (List.length (stream_buffer c))).

(** [erase(begin(), end() - keep)]: drop all but the last [keep]. *)
Definition erase_front (keep : Z) (buf : list sample) : list sample :=
  skipn (List.length buf - Z.to_nat keep) buf.

(** [audio_data] points to at least [audio_len] samples; the insert
    reads exactly the first [audio_len] of them. *)
Definition whisper_bridge_stream_push
    (ctx : option whisper_bridge_context)
    (audio_data : option (list sample)) (audio_len : Z)
  : M (Z * option whisper_bridge_context) :=
  match ctx, audio_data with
  | Some c, Some data =>
      if audio_len <=? 0 then ret (-1, ctx)
      else if negb (streaming c) then ret (-1, ctx)
      else
        let c :=
          set_stream_buffer c
            (stream_buffer c ++ firstn (Z.to_nat audio_len) data) in
        if stream_step_samples c <=? buffer_size32 c then
          let params := with_single_segment (make_params c) in
          rc <- run_full c params (stream_buffer c) (buffer_size32 c) ;;
          let (r, c) := rc in
          (if r =? 0 then
             let n_seg := whisper_full_n_segments (wctx c) in
             fire_callbacks c n_seg
           else ret tt) ;;
          let keep := 16000 / 2 in
          let c :=
            if keep <? buffer_size32 c
            then set_stream_buffer c (erase_front keep (stream_buffer c))
            else c in
          ret (0, Some c)
        else ret (0, Some c)
  | _, _ => ret (-1, ctx)
  end.

Definition clear_stream (c : whisper_bridge_context) :=
  set_stream_callback (set_stream_buffer c []) None None.

Definition whisper_bridge_stream_stop
    (ctx : option whisper_bridge_context)
  : M (whisper_bridge_result * option whisper_bridge_context) :=
  match ctx with
  | None => ret (empty, None)
  | Some c =>
      let c := set_streaming c false in
      match stream_buffer c with
      | _ :: _ =>
          let params := make_params c in
          start <- now ;;
          rc <- run_full c params (stream_buffer c) (buffer_size32 c) ;;
          let (r, c) := rc in
          stop <- now ;;
          let duration_ms := duration_cast_ms (stop - start) in
          if r =? 0 then
            let n_seg := whisper_full_n_segments (wctx c) in
            let lang_id := whisper_full_lang_id (wctx c) in
            fire_callbacks c n_seg ;;
            let c := clear_stream c in
            let (res, c) := make_result c n_seg lang_id f32_zero duration_ms in
            ret (res, Some c)
          else ret (empty, Some (clear_stream c))
      | [] => ret (empty, Some (clear_stream c))
      end
  end.

(** *** Utilities *)

(** [dst[i] = v], for an index inside [dst]. *)
Fixpoint store {A} (l : list A) (i : nat) (v : A) : list A :=
  match l, i with
  | [], _ => []
  | _ :: l', O => v :: l'
  | x :: l', S i' => x :: store l' i' v
  end.

(** The literal [32768.0f], that is 2^23 * 2^-8. *)
Definition f32_32768 : float := S754_finite false 8388608 (-8).

(** [static_cast<float>(v) / 32768.0f] *)
Definition pcm16_sample (v : Z) : float :=
  float_div (float_of_int v) f32_32768.

(** The result is the content of [dst] after the call.  [src] and [dst]
    hold at least [n] elements each. *)
Definition whisper_bridge_pcm16_to_f32
    (src : option (list Z)) (dst : option (list float)) (n : Z)
  : option (list float) :=
  match src, dst with
  | Some s, Some d =>
      if n <=? 0 then dst
      else
        Some (fold_left
                (fun d i =>
                   store d (Z.to_nat i) (pcm16_sample (nth (Z.to_nat i) s 0)))
                (indices n) d)
  | _, _ => dst
  end.

Definition whisper_bridge_version : string := "1.0.0-meetmind".

(** ** Sessions: sequences of calls on one context *)

Inductive call :=
| SetLanguage (lang : option string)
| SetThreads (n : Z)
| Transcribe (audio_data : option (list sample)) (audio_len : Z)
| StreamStart (callback : option whisper_bridge_segment_callback)
              (user_data : pointer)
| StreamPush (audio_data : option (list sample)) (audio_len : Z)
| StreamStop.

Definition run_call (k : call) (ctx : option whisper_bridge_context)
  : M (option whisper_bridge_context) :=
  match k with
  | SetLanguage lang => ret (snd (whisper_bridge_set_language ctx lang))
  | SetThreads n => ret (whisper_bridge_set_threads ctx n)
  | Transcribe d n => r <- whisper_bridge_transcribe ctx d n ;; ret (snd r)
  | StreamStart cb ud => ret (snd (whisper_bridge_stream_start ctx cb ud))
  | StreamPush d n => r <- whisper_bridge_stream_push ctx d n ;; ret (snd r)
  | StreamStop => r <- whisper_bridge_stream_stop ctx ;; ret (snd r)
  end.

Fixpoint run_calls (ks : list call) (ctx : option whisper_bridge_context)
  : M (option whisper_bridge_context) :=
  match ks with
  | [] => ret ctx
  | k :: ks' => c <- run_call k ctx ;; run_calls ks' c
  end.

(** A context is reachable when some sequence of calls leads to it from
    a context that [whisper_bridge_init] returned. *)
Definition reachable (c : whisper_bridge_context) : Prop :=
  exists path c0 ks w0 w,
    whisper_bridge_init path = Some c0 /\
    run_calls ks (Some c0) w0 = (Some c, w).

(** The number of samples a push hands over. *)
Definition push_length (audio_len : Z) : Z := Z.max 0 audio_len.

(** The thresholds of the streaming policy. *)
Definition stepThreshold : Z := 32000.
Definition overlapRetention : Z := 8000.

(** What holds of the context between calls. *)
Record session_inv (c : whisper_bridge_context) : Prop := {
  inv_step : stream_step_samples c = stepThreshold;
  inv_callback : streaming c = true -> stream_callback c <> None;
  inv_idle : streaming c = false -> stream_buffer c = []
}.

End Bridge.

(** ** Vocabulary of the properties *)

(** The world after [evs] more events. *)
Definition add_events (w : world) (evs : list event) : world :=
  {| w_trace := w_trace w ++ evs;
     w_clock := w_clock w;
     w_ticks := w_ticks w |}.

(** The world after [n] more readings of the clock. *)
Definition add_ticks (w : world) (n : nat) : world :=
  {| w_trace := w_trace w;
     w_clock := w_clock w;
     w_ticks := (n + w_ticks w)%nat |}.

Definition is_callback (e : event) : bool :=
  match e with
  | EvCallback _ _ _ _ => true
  | EvFull _ _ _ => false
  end.

Fixpoint drop_leading_empty (ts : list string) : list string :=
  match ts with
  | [] => []
  | t :: ts' => if string_empty t then drop_leading_empty ts' else ts
  end.

(** The texts joined by single spaces, leading empty texts dropped. *)
Definition joined (ts : list string) : string :=
  String.concat " " (drop_leading_empty ts).

(** One turn of the loop of [make_result], on a non-null text. *)
Definition app_text (acc t : string) : string :=
  ((if negb (string_empty acc) then acc ++ " " else acc) ++ t)%string.

(** [lo; lo + 1; ...], [n] values. *)
Fixpoint count_up (lo : Z) (n : nat) : list Z :=
  match n with
  | O => []
  | S n' => lo :: count_up (lo + 1) n'
  end.

(** All the values of [int16_t]. *)
Definition int16_values : list Z := count_up INT16_MIN (Z.to_nat 65536).

(** The rational number [v / 32768]. *)
Definition pcm16_exact (v : Z) : Q := (inject_Z v / inject_Z 32768)%Q.

(** The loop of [whisper_bridge_pcm16_to_f32] over the indices [l]. *)
Definition pcm16_loop (s : list Z) (l : list Z) (d : list float)
  : list float :=
  fold_left
    (fun d i => store d (Z.to_nat i) (pcm16_sample (nth (Z.to_nat i) s 0)))
    l d.

Fixpoint sum_lengths (lens : list Z) : Z :=
  match lens with
  | [] => 0
  | n :: lens' => n + sum_lengths lens'
  end.

Section Vocabulary.

Context {E : Engine}.

(** The non-null texts of segments [0 .. n-1], in segment order. *)
Definition produced_texts (w : whisper_context) (n : Z) : list string :=
  flat_map
    (fun i => match whisper_full_get_segment_text w i with
              | Some t => [t]
              | None => []
              end)
    (indices n).

(** The callback events of one delivery of the segments of [w]. *)
Definition deliveries (cb : whisper_bridge_segment_callback)
    (ud : pointer) (w : whisper_context) : list event :=
  map (fun t => EvCallback cb t 0 ud)
      (produced_texts w (whisper_full_n_segments w)).

(** A push as a call of a session. *)
Definition push_call (p : list sample * Z) : call :=
  StreamPush (Some (fst p)) (snd p).

Definition pushed_samples (p : list sample * Z) : list sample :=
  firstn (Z.to_nat (snd p)) (fst p).

(** The callback events of the loop over the segments of [c]. *)
Definition callback_events (c : whisper_bridge_context) : list event :=
  match stream_callback c with
  | Some cb => deliveries cb (stream_user_data c) (wctx c)
  | None => []
  end.

(** The accumulator after the append of a push. *)
Definition appended (c : whisper_bridge_context) (data : list sample)
    (len : Z) : list sample :=
  stream_buffer c ++ firstn (Z.to_nat len) data.

(** The context and the events of a push that flushes. *)
Definition flushed (c : whisper_bridge_context) (buf : list sample)
  : whisper_bridge_context :=
  let n := cast_int32 (Z.of_nat (List.length buf)) in
  let params := with_single_segment (make_params c) in
  set_wctx c (snd (whisper_full (wctx c) params buf n)).

Definition flush_events (c : whisper_bridge_context) (buf : list sample)
  : list event :=
  let n := cast_int32 (Z.of_nat (List.length buf)) in
  let params := with_single_segment (make_params c) in
  EvFull params buf n ::
  (if fst (whisper_full (wctx c) params buf n) =? 0
   then callback_events (flushed c buf)
   else []).

(** [stream_buffer.size()], narrowed, right after the append of a push. *)
Definition push_size (c : whisper_bridge_context) (data : list sample)
    (len : Z) : Z :=
  cast_int32 (Z.of_nat (List.length (appended c data len))).

(** The context a flushing push leaves behind. *)
Definition after_flush (c : whisper_bridge_context) (data : list sample)
    (len : Z) : whisper_bridge_context :=
  set_stream_buffer (flushed c (appended c data len))
    (erase_front overlapRetention (appended c data len)).

(** The context [whisper_bridge_stream_start] leaves behind. *)
Definition started (c : whisper_bridge_context)
    (cb : whisper_bridge_segment_callback) (ud : pointer)
  : whisper_bridge_context :=
  set_stream_buffer (set_stream_callback (set_streaming c true) (Some cb) ud)
    [].

(** A push whose buffer holds the samples it announces. *)
Definition well_formed_push (p : list sample * Z) : Prop :=
  0 <= snd p <= Z.of_nat (List.length (fst p)).

(** A push that is too short to carry the narrowed size of the
    accumulator past [INT32_MAX]. *)
Definition bounded_call (k : call) : Prop :=
  match k with
  | StreamPush _ len => len <= 2147483647 - stepThreshold
  | _ => True
  end.

(** The invariant of a session, with the bound on the accumulator. *)
Definition bounded_inv (c : whisper_bridge_context) : Prop :=
  session_inv c /\
  Z.of_nat (List.length (stream_buffer c)) < stepThreshold.

End Vocabulary.

(** ** Vocabulary of the session-wide properties *)

Section SessionVocabulary.

Context {E : Engine}.

(** What [make_params] fixes in the parameters of every pass, on a
    context whose thread count is positive and whose language is "auto"
    or a code of the engine's table. *)
Definition sound_params (p : whisper_full_params) : Prop :=
  0 < p_n_threads p /\
  p_no_context p = true /\
  p_translate p = false /\
  p_no_timestamps p = true /\
  p_print_special p = false /\
  p_print_progress p = false /\
  p_print_realtime p = false /\
  p_print_timestamps p = false /\
  p_greedy_best_of p = 1 /\
  match p_language p with
  | None => p_detect_language p = true
  | Some l =>
      p_detect_language p = false /\ l <> "auto" /\ 0 <= whisper_lang_id l
  end.

(** An inference pass with sound parameters, or a callback that
    delivers a final segment ([is_partial] is 0). *)
Definition sound_event (e : event) : Prop :=
  match e with
  | EvFull p _ _ => sound_params p
  | EvCallback _ _ is_partial _ => is_partial = 0
  end.

(** The configuration of a context is valid. *)
Definition config_inv (c : whisper_bridge_context) : Prop :=
  0 < n_threads c /\
  (language c = "auto" \/ 0 <= whisper_lang_id (language c)).

(** [n_threads] as [whisper_bridge_set_threads] stores it. *)
Definition clamp_threads (n : Z) : Z := if 0 <? n then n else 4.

(** A chunk pushed whole: the buffer and its length. *)
Definition whole (a : list sample) : call :=
  StreamPush (Some a) (Z.of_nat (List.length a)).

(** The status and the engine state of the pass of a batch
    transcription of [len] samples at [d]. *)
Definition batch_status (c : whisper_bridge_context) (d : list sample)
    (len : Z) : Z :=
  fst (whisper_full (wctx c) (make_params c) d len).

Definition batch_ctx (c : whisper_bridge_context) (d : list sample)
    (len : Z) : whisper_bridge_context :=
  set_wctx c (snd (whisper_full (wctx c) (make_params c) d len)).

(** The status and the context of the final pass of a stop. *)
Definition final_status (c : whisper_bridge_context) : Z :=
  fst (whisper_full (wctx c) (make_params c) (stream_buffer c)
         (buffer_size32 c)).

Definition final_ctx (c : whisper_bridge_context)
  : whisper_bridge_context :=
  set_wctx (set_streaming c false)
    (snd (whisper_full (wctx c) (make_params c) (stream_buffer c)
            (buffer_size32 c))).

(** The result of a successful pass that left the context [c1], timed
    between the readings [t] and [t + 1] of the clock of [w]: the whole
    milliseconds between the two time points. *)
Definition result_of (c1 : whisper_bridge_context) (w : world)
  : whisper_bridge_result :=
  {| text := joined (produced_texts (wctx c1)
                       (whisper_full_n_segments (wctx c1)));
     segments := whisper_full_n_segments (wctx c1);
     lang_id := whisper_full_lang_id (wctx c1);
     lang_prob := f32_zero;
     duration_ms :=
       duration_cast_ms
         (w_clock w (S (w_ticks w)) - w_clock w (w_ticks w)) |}.

(** Outside a streaming session the context holds no callback. *)
Definition idle_clean (c : whisper_bridge_context) : Prop :=
  streaming c = false ->
  stream_callback c = None /\ stream_user_data c = None.

(** Everything the calls keep true of a context. *)
Definition whole_inv (c : whisper_bridge_context) : Prop :=
  config_inv c /\ session_inv c /\ idle_clean c.

(** The audio that the passes among [evs] consume for the first time:
    the first pass ([first] says whether it is still to come) consumes
    its whole input, each later pass its input without the 8000
    samples it repeats from the pass before.  The input of a pass is
    the [n_samples] samples it is handed. *)
Fixpoint consumed (first : bool) (evs : list event) : list sample :=
  match evs with
  | [] => []
  | EvFull _ samples n :: evs' =>
      (if first then firstn (Z.to_nat n) samples
       else skipn (Z.to_nat overlapRetention) (firstn (Z.to_nat n) samples))
      ++ consumed false evs'
  | EvCallback _ _ _ _ :: evs' => consumed first evs'
  end.

(** The part of the accumulator that no pass has consumed yet. *)
Definition pending (first : bool) (buf : list sample) : list sample :=
  if first then buf else skipn (Z.to_nat overlapRetention) buf.

(** A chunk whose length fits [audio_len] with room for the step. *)
Definition bounded_push (p : list sample * Z) : Prop :=
  snd p <= 2147483647 - stepThreshold.

End SessionVocabulary.

(** ** A scripted engine

    An instance of the collaborator whose inference passes follow a
    script: each pass consumes one entry, a status and the segment
    texts it leaves behind (a [None] text is a null pointer).  [models]
    says which files load and with which script. *)

Module Scripted.

Definition pass : Type := Z * list (option string).

Record state := {
  script : list pass;
  result : list (option string)
}.

Definition full (s : state) : Z * state :=
  match script s with
  | [] => (1, s)
  | (r, segs) :: rest =>
      (r, {| script := rest;
             result := if r =? 0 then segs else result s |})
  end.

Definition segment_text (s : state) (i : Z) : option string :=
  if i <? 0 then None
  else match nth_error (result s) (Z.to_nat i) with
       | Some t => t
       | None => None
       end.

Definition lang_table : list (string * Z) :=
  [("en", 0); ("zh", 1); ("de", 2); ("es", 3); ("ru", 4);
   ("ko", 5); ("fr", 6); ("ja", 7); ("pt", 8)].

Definition lang_id_of (code : string) : Z :=
  match find (fun p => String.eqb (fst p) code) lang_table with
  | Some p => snd p
  | None => -1
  end.

Definition default_params (s : whisper_sampling_strategy) :=
  {| p_strategy := s;
     p_n_threads := 4;
     p_no_context := true;
     p_single_segment := false;
     p_print_special := false;
     p_print_progress := true;
     p_print_realtime := false;
     p_print_timestamps := true;
     p_translate := false;
     p_no_timestamps := false;
     p_language := Some "en";
     p_detect_language := false;
     p_greedy_best_of := 5 |}.

Definition engine (models : string -> option (list pass)) : Engine :=
  {| whisper_context := state;
     whisper_context_default_params :=
       {| use_gpu := true; gpu_device := 0 |};
     whisper_init_from_file_with_params path _ :=
       match models path with
       | Some sc => Some {| script := sc; result := [] |}
       | None => None
       end;
     whisper_full_default_params := default_params;
     whisper_full s _ _ _ := full s;
     whisper_full_n_segments s := Z.of_nat (List.length (result s));
     whisper_full_get_segment_text := segment_text;
     whisper_full_lang_id _ := 0;
     whisper_lang_id := lang_id_of |}.

(** One model file, [ggml-base.bin], with the given script. *)
Definition one_model (sc : list pass) (path : string)
  : option (list pass) :=
  if String.eqb path "ggml-base.bin" then Some sc else None.

(** Every path loads, the empty one too. *)
Definition any_model (sc : list pass) (path : string)
  : option (list pass) := Some sc.

Definition clock0 (i : nat) : Z := 900000 + 1300000 * Z.of_nat i.

Definition world0 : world :=
  {| w_trace := []; w_clock := clock0; w_ticks := 0 |}.

Definition silence (n : Z) : list sample :=
  repeat f32_zero (Z.to_nat n).

(** A pass that succeeds with three segments, the second without text. *)
Definition script_ab : list pass := [(0, [Some "a"; None; Some "b"])].

(** The engine whose one model runs the script [sc]. *)
Definition eng (sc : list pass) : Engine := engine (one_model sc).

(** The context that init returns for that model. *)
Definition fresh (sc : list pass)
  : whisper_bridge_context (E := eng sc) :=
  new_context (E := eng sc) {| script := sc; result := [] |}.

(** The context after a start, with callback 7 and user data 42, and
    pushes that left [buf] in the accumulator. *)
Definition live (sc : list pass) (buf : list sample)
  : whisper_bridge_context (E := eng sc) :=
  set_stream_buffer (E := eng sc)
    (started (E := eng sc) (fresh sc) 7 (Some 42)) buf.

End Scripted.

(** ** Properties *)

Section Properties.

Context {E : Engine}.

(** *** The world *)

Lemma add_events_nil w : add_events w [] = w.
Proof. destruct w; unfold add_events; simpl. now rewrite app_nil_r. Qed.

Lemma add_events_app w a b :
  add_events (add_events w a) b = add_events w (a ++ b).
Proof. unfold add_events; simpl. now rewrite app_assoc. Qed.

Lemma emit_add e w : emit e w = (tt, add_events w [e]).
Proof. reflexivity. Qed.

Lemma now_add w : now w = (w_clock w (w_ticks w), add_ticks w 1).
Proof. reflexivity. Qed.

Lemma run_full_eq c params samples n w :
  run_full c params samples n w =
  ((fst (whisper_full (wctx c) params samples n),
    set_wctx c (snd (whisper_full (wctx c) params samples n))),
   add_events w [EvFull params samples n]).
Proof.
  unfold run_full, bind. rewrite emit_add.
  destruct (whisper_full (wctx c) params samples n); reflexivity.
Qed.

(** *** The callback loop *)

Lemma fire_callback_eq c i w :
  fire_callback c i w =
  (tt, add_events w
         (match stream_callback c with
          | Some cb =>
              map (fun t => EvCallback cb t 0 (stream_user_data c))
                (match whisper_full_get_segment_text (wctx c) i with
                 | Some t => [t]
                 | None => []
                 end)
          | None => []
          end)).
Proof.
  unfold fire_callback.
  destruct (whisper_full_get_segment_text (wctx c) i) as [t|];
    destruct (stream_callback c) as [cb|]; simpl;
    try rewrite emit_add; unfold ret; now rewrite ?add_events_nil.
Qed.

Lemma for_each_fire c l w :
  for_each l (fire_callback c) w =
  (tt, add_events w
         (match stream_callback c with
          | Some cb =>
              map (fun t => EvCallback cb t 0 (stream_user_data c))
                (flat_map
                   (fun i =>
                      match whisper_full_get_segment_text (wctx c) i with
                      | Some t => [t]
                      | None => []
                      end) l)
          | None => []
          end)).
Proof.
  revert w. induction l as [|i l IH]; intros w; simpl.
  - unfold ret. destruct (stream_callback c); simpl;
      now rewrite add_events_nil.
  - unfold bind. rewrite fire_callback_eq, IH, add_events_app.
    destruct (stream_callback c) as [cb|]; [|reflexivity].
    now rewrite map_app.
Qed.

Lemma fire_callbacks_eq c w :
  fire_callbacks c (whisper_full_n_segments (wctx c)) w =
  (tt, add_events w (callback_events c)).
Proof.
  unfold fire_callbacks, callback_events, deliveries, produced_texts.
  apply for_each_fire.
Qed.

(** *** The joined text *)

Lemma string_app_assoc (a b c : string) :
  ((a ++ b) ++ c = a ++ (b ++ c))%string.
Proof. induction a as [|x a IH]; simpl; [reflexivity|now rewrite IH]. Qed.

Lemma string_empty_app_r (a b : string) :
  string_empty a = false -> string_empty (a ++ b)%string = false.
Proof. now destruct a. Qed.

Lemma fold_app_text_nonempty ts acc :
  string_empty acc = false ->
  fold_left app_text ts acc = String.concat " " (acc :: ts).
Proof.
  revert acc. induction ts as [|t ts IH]; intros acc Hacc.
  - reflexivity.
  - cbn [fold_left].
    assert (Hstep : app_text acc t = (acc ++ " " ++ t)%string).
    { unfold app_text. rewrite Hacc. cbn [negb]. apply string_app_assoc. }
    rewrite Hstep, IH by now apply string_empty_app_r.
    destruct ts as [|t' ts]; cbn [String.concat];
      now rewrite ?string_app_assoc.
Qed.

Lemma fold_app_text ts : fold_left app_text ts EmptyString = joined ts.
Proof.
  unfold joined. induction ts as [|t ts IH]; [reflexivity|].
  cbn [fold_left drop_leading_empty]. change (app_text EmptyString t) with t.
  destruct (string_empty t) eqn:Ht.
  - destruct t; [exact IH|discriminate].
  - now apply fold_app_text_nonempty.
Qed.

Lemma fold_append_segment w l acc :
  fold_left (append_segment w) l acc =
  fold_left app_text
    (flat_map
       (fun i => match whisper_full_get_segment_text w i with
                 | Some t => [t]
                 | None => []
                 end) l) acc.
Proof.
  revert acc. induction l as [|i l IH]; intros acc; [reflexivity|].
  cbn [fold_left flat_map]. rewrite fold_left_app, IH.
  unfold append_segment.
  now destruct (whisper_full_get_segment_text w i).
Qed.

Lemma make_result_eq c n lid lp d :
  make_result c n lid lp d =
  ({| text := joined (produced_texts (wctx c) n);
      segments := n; lang_id := lid; lang_prob := lp; duration_ms := d |},
   set_last_result_text c (joined (produced_texts (wctx c) n))).
Proof.
  unfold make_result.
  cbn [wctx last_result_text set_last_result_text].
  rewrite fold_append_segment, fold_app_text. reflexivity.
Qed.

(** *** Narrowing and truncation *)

Lemma cast_int32_small z : 0 <= z < 2147483648 -> cast_int32 z = z.
Proof.
  intros H. unfold cast_int32.
  rewrite Z.mod_small by lia. lia.
Qed.

Lemma cast_int32_le z : 0 <= z -> cast_int32 z <= z.
Proof.
  intros H. unfold cast_int32.
  pose proof (Z.mod_le (z + 2147483648) 4294967296). lia.
Qed.

Lemma cast_int32_wrap z :
  2147483648 <= z < 6442450944 -> cast_int32 z = z - 4294967296.
Proof.
  intros H. unfold cast_int32.
  replace (z + 2147483648) with (z - 2147483648 + 1 * 4294967296) by lia.
  rewrite Z.mod_add by lia. rewrite Z.mod_small by lia. lia.
Qed.

Lemma erase_front_length keep (buf : list sample) :
  0 <= keep <= Z.of_nat (List.length buf) ->
  Z.of_nat (List.length (erase_front keep buf)) = keep.
Proof.
  intros H. unfold erase_front. rewrite length_skipn. lia.
Qed.

Lemma erase_front_suffix keep (buf : list sample) :
  exists dropped, buf = dropped ++ erase_front keep buf.
Proof.
  exists (firstn (List.length buf - Z.to_nat keep) buf).
  unfold erase_front. now rewrite firstn_skipn.
Qed.

Lemma firstn_whole (l : list sample) :
  firstn (Z.to_nat (Z.of_nat (List.length l))) l = l.
Proof. rewrite Nat2Z.id. apply firstn_all. Qed.

(** *** Rejected pushes *)

Lemma push_not_streaming c data len w :
  streaming c = false ->
  whisper_bridge_stream_push (Some c) data len w = ((-1, Some c), w).
Proof.
  intros Hs. unfold whisper_bridge_stream_push.
  destruct data as [d|]; [|reflexivity].
  destruct (len <=? 0); [reflexivity|].
  rewrite Hs. reflexivity.
Qed.

Lemma push_invalid c data len w :
  data = None \/ len <= 0 ->
  whisper_bridge_stream_push (Some c) data len w = ((-1, Some c), w).
Proof.
  intros [-> | Hlen]; [reflexivity|].
  unfold whisper_bridge_stream_push.
  destruct data as [d|]; [|reflexivity].
  apply Z.leb_le in Hlen. rewrite Hlen. reflexivity.
Qed.

(** *** Accepted pushes *)

Lemma push_append c data len w :
  streaming c = true -> 0 < len ->
  cast_int32 (Z.of_nat (List.length (appended c data len)))
    < stream_step_samples c ->
  whisper_bridge_stream_push (Some c) (Some data) len w =
  ((0, Some (set_stream_buffer c (appended c data len))), w).
Proof.
  intros Hs Hlen Hlt. unfold whisper_bridge_stream_push.
  apply Z.leb_gt in Hlen. rewrite Hlen, Hs. cbn [negb].
  fold (appended c data len).
  unfold buffer_size32. cbn [stream_buffer stream_step_samples set_stream_buffer].
  apply Z.leb_gt in Hlt. rewrite Hlt. reflexivity.
Qed.

Lemma push_flush c data len w :
  streaming c = true -> 0 < len ->
  stream_step_samples c
    <= cast_int32 (Z.of_nat (List.length (appended c data len))) ->
  overlapRetention
    < cast_int32 (Z.of_nat (List.length (appended c data len))) ->
  whisper_bridge_stream_push (Some c) (Some data) len w =
  ((0, Some (set_stream_buffer (flushed c (appended c data len))
               (erase_front overlapRetention (appended c data len)))),
   add_events w (flush_events c (appended c data len))).
Proof.
  intros Hs Hlen Hge Hkeep. unfold whisper_bridge_stream_push.
  apply Z.leb_gt in Hlen. rewrite Hlen, Hs. cbn [negb].
  fold (appended c data len).
  set (buf := appended c data len) in *.
  unfold buffer_size32.
  cbn [stream_buffer stream_step_samples set_stream_buffer].
  apply Z.leb_le in Hge. rewrite Hge.
  unfold bind. rewrite run_full_eq.
  change (make_params (set_stream_buffer c buf)) with (make_params c).
  cbn [wctx set_stream_buffer fst snd].
  unfold flush_events, flushed.
  set (n := cast_int32 (Z.of_nat (List.length buf))) in *.
  set (params := with_single_segment (make_params c)).
  destruct (whisper_full (wctx c) params buf n) as [r w1] eqn:Hfull.
  cbn [fst snd].
  change (16000 / 2) with overlapRetention.
  cbn [stream_buffer set_wctx set_stream_buffer].
  fold n. apply Z.ltb_lt in Hkeep. rewrite Hkeep.
  destruct (r =? 0).
  - rewrite fire_callbacks_eq. unfold ret.
    rewrite add_events_app. reflexivity.
  - unfold ret. reflexivity.
Qed.

(** *** Stop *)

Lemma stop_shape c w :
  exists res c' w',
    whisper_bridge_stream_stop (Some c) w = ((res, Some c'), w') /\
    streaming c' = false /\ stream_buffer c' = [] /\
    stream_callback c' = None /\ stream_user_data c' = None.
Proof.
  unfold whisper_bridge_stream_stop.
  destruct (stream_buffer (set_streaming c false)) as [|x buf] eqn:Hb.
  - do 3 eexists. split; [reflexivity|]. now simpl.
  - unfold bind. rewrite now_add, run_full_eq.
    destruct (whisper_full _ _ _ _) as [r w1]; cbn [fst snd].
    rewrite now_add.
    destruct (r =? 0); cbv beta.
    + match goal with
      | |- context [fire_callbacks ?a ?n ?v] =>
          destruct (fire_callbacks a n v) as [[] w2]
      end.
      unfold make_result.
      do 3 eexists. split; [reflexivity|]. now simpl.
    + do 3 eexists. split; [reflexivity|]. now simpl.
Qed.

Lemma stop_step c w res c' w' :
  whisper_bridge_stream_stop (Some c) w = ((res, Some c'), w') ->
  stream_step_samples c' = stream_step_samples c.
Proof.
  unfold whisper_bridge_stream_stop.
  destruct (stream_buffer (set_streaming c false)) as [|x buf].
  - intros [= <- <- <-]. reflexivity.
  - unfold bind. rewrite now_add, run_full_eq.
    destruct (whisper_full _ _ _ _) as [r w1]; cbn [fst snd].
    rewrite now_add.
    destruct (r =? 0); cbv beta.
    + rewrite fire_callbacks_eq, make_result_eq.
      intros [= <- <- <-]. reflexivity.
    + intros [= <- <- <-]. reflexivity.
Qed.

(** *** Init and the batch path *)

Lemma init_not_streaming path c :
  whisper_bridge_init path = Some c ->
  streaming c = false /\ stream_buffer c = [] /\
  stream_step_samples c = stepThreshold /\ stream_callback c = None.
Proof.
  unfold whisper_bridge_init. destruct path as [p|]; [|discriminate].
  destruct (whisper_init_from_file_with_params _ _); [|discriminate].
  intros [= <-]. now simpl.
Qed.

Lemma transcribe_frame c data len w :
  exists res c' w',
    whisper_bridge_transcribe (Some c) data len w = ((res, Some c'), w') /\
    streaming c' = streaming c /\
    stream_buffer c' = stream_buffer c /\
    stream_callback c' = stream_callback c /\
    stream_step_samples c' = stream_step_samples c.
Proof.
  unfold whisper_bridge_transcribe.
  destruct data as [d|]; [|do 3 eexists; split; [reflexivity|now simpl]].
  destruct (len <=? 0); [do 3 eexists; split; [reflexivity|now simpl]|].
  unfold bind. rewrite now_add, run_full_eq.
  destruct (whisper_full _ _ _ _) as [r w1]; cbn [fst snd].
  destruct (r =? 0); cbn [negb].
  - rewrite now_add, make_result_eq.
    do 3 eexists; split; [reflexivity|now simpl].
  - do 3 eexists; split; [reflexivity|now simpl].
Qed.

(** *** The invariant of a session *)

Lemma push_frame c data len w :
  exists r c' w',
    whisper_bridge_stream_push (Some c) data len w = ((r, Some c'), w') /\
    streaming c' = streaming c /\
    stream_callback c' = stream_callback c /\
    stream_step_samples c' = stream_step_samples c /\
    (streaming c = false -> stream_buffer c' = stream_buffer c).
Proof.
  destruct (streaming c) eqn:Hs.
  2:{ rewrite push_not_streaming by assumption.
      exists (-1), c, w. rewrite Hs. auto. }
  unfold whisper_bridge_stream_push.
  destruct data as [d|]; [|exists (-1), c, w; rewrite Hs; auto].
  destruct (len <=? 0); [exists (-1), c, w; rewrite Hs; auto|].
  rewrite Hs. cbn [negb].
  match goal with
  | |- context [if ?b then _ else _] => destruct b
  end.
  - unfold bind. rewrite run_full_eq.
    destruct (whisper_full _ _ _ _) as [r w1]; cbn [fst snd].
    destruct (r =? 0); [rewrite fire_callbacks_eq|unfold ret];
      match goal with
      | |- context [if ?b then _ else _] => destruct b
      end;
      do 3 eexists; (split; [reflexivity|]);
      cbn [streaming stream_callback stream_step_samples set_stream_buffer
           set_wctx]; repeat split; auto; discriminate.
  - do 3 eexists. split; [reflexivity|].
    cbn [streaming stream_callback stream_step_samples set_stream_buffer].
    repeat split; auto; discriminate.
Qed.

Lemma run_call_inv k c w :
  session_inv c ->
  exists c' w', run_call k (Some c) w = (Some c', w') /\ session_inv c'.
Proof.
  intros [Hstep Hcb Hidle].
  destruct k as [lang|n|d n|cb ud|d n|]; cbn [run_call].
  - unfold ret, whisper_bridge_set_language.
    destruct lang as [l|]; [|now exists c, w].
    destruct (String.eqb l "auto");
      [|destruct (whisper_lang_id l <? 0)];
      do 2 eexists; (split; [reflexivity|]); now split.
  - unfold ret. do 2 eexists. split; [reflexivity|]. now split.
  - destruct (transcribe_frame c d n w)
      as (res & c' & w' & Heq & Hs & Hb & Hc & Ht).
    unfold bind. rewrite Heq. unfold ret. cbn [snd].
    exists c', w'. split; [reflexivity|].
    split; rewrite ?Hs, ?Hb, ?Hc, ?Ht; auto.
  - unfold ret, whisper_bridge_stream_start.
    destruct cb as [cb|]; [|now exists c, w].
    do 2 eexists. split; [reflexivity|].
    split; simpl; auto; discriminate.
  - destruct (push_frame c d n w)
      as (r & c' & w' & Heq & Hs & Hc & Ht & Hb).
    unfold bind. rewrite Heq. unfold ret. cbn [snd].
    exists c', w'. split; [reflexivity|].
    split; rewrite ?Hs, ?Hc, ?Ht; auto.
    intros Hf. rewrite Hb; auto.
  - destruct (stop_shape c w) as (res & c' & w' & Heq & Hs & Hb & Hc & _).
    pose proof (stop_step _ _ _ _ _ Heq) as Ht.
    unfold bind. rewrite Heq. unfold ret. cbn [snd].
    exists c', w'. split; [reflexivity|].
    split; rewrite ?Hb, ?Ht; auto; congruence.
Qed.

(** Every reachable context satisfies the invariant: its step is
    stepThreshold, it has a callback while it streams, and its
    accumulator is empty while it does not. *)
Lemma reachable_inv c : reachable c -> session_inv c.
Proof.
  intros (path & c0 & ks & w0 & w & Hinit & Hrun).
  assert (H0 : session_inv c0).
  { apply init_not_streaming in Hinit as (Hs & Hb & Ht & Hc).
    split; auto; congruence. }
  clear Hinit. revert c0 w0 H0 Hrun.
  induction ks as [|k ks IH]; intros c0 w0 H0 Hrun.
  - cbn in Hrun. now inversion Hrun; subst.
  - cbn [run_calls] in Hrun. unfold bind in Hrun.
    destruct (run_call_inv k c0 w0 H0) as (c1 & w1 & Heq & H1).
    rewrite Heq in Hrun. eauto.
Qed.

(** *** Flushing pushes *)

(** C1 (amended).  On a streaming session, a push whose appended total
    reaches stepThreshold (32000 samples) and is below 2^31 runs
    exactly one inference pass, over the entire accumulator and in
    single-segment mode.  If the pass succeeds the callback is invoked,
    before the push returns, once for every produced segment whose
    text is not null, in segment order; if it fails the callback is not
    invoked.  Afterwards the accumulator holds exactly its trailing
    min(8000, pre-flush length) = 8000 samples. *)
Theorem C1_push_flush (c : whisper_bridge_context) (data : list sample)
    (len : Z) (w : world) :
  reachable c ->
  streaming c = true ->
  0 < len ->
  stepThreshold <= Z.of_nat (List.length (appended c data len))
    < 2147483648 ->
  exists cb,
    stream_callback c = Some cb /\
    whisper_bridge_stream_push (Some c) (Some data) len w =
      ((0, Some (after_flush c data len)),
       add_events w
         (EvFull (with_single_segment (make_params c))
            (appended c data len)
            (Z.of_nat (List.length (appended c data len)))
          :: (if fst (whisper_full (wctx c)
                        (with_single_segment (make_params c))
                        (appended c data len)
                        (Z.of_nat (List.length (appended c data len)))) =? 0
              then deliveries cb (stream_user_data c)
                     (wctx (after_flush c data len))
              else []))) /\
    p_single_segment (with_single_segment (make_params c)) = true /\
    wctx (after_flush c data len) =
      snd (whisper_full (wctx c) (with_single_segment (make_params c))
             (appended c data len)
             (Z.of_nat (List.length (appended c data len)))) /\
    stream_buffer (after_flush c data len) =
      skipn (List.length (appended c data len) - Z.to_nat overlapRetention)
        (appended c data len) /\
    Z.of_nat (List.length (stream_buffer (after_flush c data len))) =
      Z.min overlapRetention
        (Z.of_nat (List.length (appended c data len))).
Proof.
  intros Hreach Hs Hlen Hsz.
  destruct (reachable_inv c Hreach) as [Hstep Hcb' _].
  destruct (stream_callback c) as [cb|] eqn:Hcb;
    [|now destruct (Hcb' Hs)].
  exists cb. split; [reflexivity|].
  unfold stepThreshold in *.
  assert (Hcast : cast_int32 (Z.of_nat (List.length (appended c data len)))
                  = Z.of_nat (List.length (appended c data len)))
    by (apply cast_int32_small; lia).
  split; [|split; [reflexivity|split; [|split; [reflexivity|]]]].
  - rewrite push_flush; try assumption.
    + unfold flush_events, callback_events. rewrite Hcast.
      unfold flushed at 2 3. cbn [stream_callback stream_user_data set_wctx].
      rewrite Hcb. unfold after_flush, flushed. rewrite Hcast.
      reflexivity.
    + rewrite Hcast. lia.
    + rewrite Hcast. unfold overlapRetention. lia.
  - unfold after_flush, flushed. rewrite Hcast. reflexivity.
  - unfold after_flush. cbn [stream_buffer set_stream_buffer].
    rewrite erase_front_length; unfold overlapRetention; lia.
Qed.

(** C3.  When a push triggers a flush and the inference pass fails
    (the engine returns a non-zero status), the only event of the push
    is that pass: no callback is fired.  The accumulator is cut down to
    its trailing 8000 samples all the same, the push returns 0, and the
    session is still streaming with its callback, so that a later push
    that brings the accumulator to the threshold runs a pass again. *)
Theorem C3_failed_flush (c : whisper_bridge_context) (data : list sample)
    (len : Z) (w : world) :
  reachable c ->
  streaming c = true ->
  0 < len ->
  stepThreshold <= push_size c data len ->
  fst (whisper_full (wctx c) (with_single_segment (make_params c))
         (appended c data len) (push_size c data len)) <> 0 ->
  whisper_bridge_stream_push (Some c) (Some data) len w =
    ((0, Some (after_flush c data len)),
     add_events w
       [EvFull (with_single_segment (make_params c))
          (appended c data len) (push_size c data len)]) /\
  stream_buffer (after_flush c data len) =
    skipn (List.length (appended c data len) - Z.to_nat 8000)
      (appended c data len) /\
  Z.of_nat (List.length (stream_buffer (after_flush c data len))) = 8000 /\
  streaming (after_flush c data len) = true /\
  stream_callback (after_flush c data len) = stream_callback c /\
  (forall data2 len2 w2,
      0 < len2 ->
      stepThreshold
        <= Z.of_nat (List.length
                       (appended (after_flush c data len) data2 len2))
        < 2147483648 ->
      exists evs,
        whisper_bridge_stream_push (Some (after_flush c data len))
          (Some data2) len2 w2 =
        ((0, Some (after_flush (after_flush c data len) data2 len2)),
         add_events w2
           (EvFull (with_single_segment (make_params c))
              (appended (after_flush c data len) data2 len2)
              (Z.of_nat (List.length
                           (appended (after_flush c data len) data2 len2)))
            :: evs))).
Proof.
  intros Hreach Hs Hlen Hge Hfail.
  pose proof (inv_step c (reachable_inv c Hreach)) as Hstep.
  unfold stepThreshold in *.
  assert (Hsz : 32000 <= Z.of_nat (List.length (appended c data len))).
  { pose proof (cast_int32_le (Z.of_nat (List.length (appended c data len)))).
    unfold push_size in Hge. lia. }
  split.
  - rewrite push_flush; try assumption.
    + unfold flush_events. fold (push_size c data len).
      apply Z.eqb_neq in Hfail. rewrite Hfail. reflexivity.
    + fold (push_size c data len). lia.
    + fold (push_size c data len). unfold overlapRetention. lia.
  - split; [reflexivity|].
    split.
    { unfold after_flush. cbn [stream_buffer set_stream_buffer].
      apply erase_front_length. unfold overlapRetention. lia. }
    split; [exact Hs|]. split; [reflexivity|].
    intros data2 len2 w2 Hlen2 Hsz2.
    eexists. rewrite push_flush.
    + unfold flush_events.
      rewrite (cast_int32_small _ (conj (Zle_0_nat _) (proj2 Hsz2))).
      reflexivity.
    + exact Hs.
    + exact Hlen2.
    + rewrite cast_int32_small by lia.
      unfold after_flush at 1. cbn [stream_step_samples set_stream_buffer].
      unfold flushed. cbn [stream_step_samples set_wctx]. lia.
    + rewrite cast_int32_small by lia. unfold overlapRetention. lia.
Qed.

(** *** Pushes below the threshold *)

Lemma pushed_samples_length p :
  well_formed_push p ->
  Z.of_nat (List.length (pushed_samples p)) = snd p.
Proof.
  unfold well_formed_push, pushed_samples. intros H.
  rewrite length_firstn. lia.
Qed.

Lemma pushed_total pushes :
  Forall well_formed_push pushes ->
  Z.of_nat (List.length (List.concat (map pushed_samples pushes))) =
  sum_lengths (map snd pushes).
Proof.
  induction 1 as [|p ps Hp _ IH]; simpl; [reflexivity|].
  rewrite length_app, Nat2Z.inj_add, IH, pushed_samples_length by assumption.
  reflexivity.
Qed.

Lemma sum_lengths_nonneg pushes :
  Forall well_formed_push pushes -> 0 <= sum_lengths (map snd pushes).
Proof.
  induction 1 as [|p ps Hp _ IH]; simpl; [lia|].
  unfold well_formed_push in Hp. lia.
Qed.

Lemma set_stream_buffer_same c : set_stream_buffer c (stream_buffer c) = c.
Proof. now destruct c. Qed.

Lemma run_pushes_below c pushes w :
  streaming c = true ->
  stream_step_samples c = stepThreshold ->
  Forall well_formed_push pushes ->
  Z.of_nat (List.length (stream_buffer c)) + sum_lengths (map snd pushes)
    < stepThreshold ->
  run_calls (map push_call pushes) (Some c) w =
  (Some (set_stream_buffer c
           (stream_buffer c ++ List.concat (map pushed_samples pushes))), w).
Proof.
  intros Hs Hstep Hwf. revert c w Hs Hstep.
  induction Hwf as [|p ps Hp Hps IH]; intros c w Hs Hstep Hsum.
  - simpl. unfold ret. now rewrite app_nil_r, set_stream_buffer_same.
  - pose proof (sum_lengths_nonneg ps Hps) as Hnn.
    pose proof (pushed_samples_length p Hp) as Hpl.
    cbn [map sum_lengths List.concat run_calls] in *.
    unfold bind. unfold run_call at 1. unfold push_call at 1.
    unfold bind.
    destruct (Z.eq_dec (snd p) 0) as [Hz|Hz].
    + rewrite push_invalid by (right; lia). cbn [snd]. unfold ret.
      rewrite IH by (assumption || lia).
      unfold pushed_samples at 2. rewrite Hz. reflexivity.
    + unfold well_formed_push in Hp.
      assert (Hlen : Z.of_nat (List.length (appended c (fst p) (snd p)))
                     = Z.of_nat (List.length (stream_buffer c)) + snd p).
      { unfold appended. fold (pushed_samples p).
        rewrite length_app, Nat2Z.inj_add, Hpl. reflexivity. }
      rewrite push_append; try assumption; try lia.
      * cbn [snd]. unfold ret.
        rewrite IH; try assumption.
        -- cbn [stream_buffer set_stream_buffer]. unfold appended.
           fold (pushed_samples p). now rewrite <- app_assoc.
        -- cbn [stream_buffer set_stream_buffer]. rewrite Hlen. lia.
      * rewrite cast_int32_small; unfold stepThreshold in *; lia.
Qed.

(** C2.  Start a streaming session and push any sequence of
    well-formed chunks whose cumulative sample count stays strictly
    below stepThreshold (32000).  After each push (after every prefix
    of the sequence) the world is what it was at the start (no
    inference pass has run and no callback has fired), the session
    still streams with the callback of the start, and the accumulator
    of the context is exactly the concatenation of the chunks pushed so
    far, untruncated, so its length is the cumulative number of samples
    pushed since the start; nothing else of the context has changed. *)
Theorem C2_pushes_below_threshold (c0 : whisper_bridge_context)
    (cb : whisper_bridge_segment_callback) (ud : pointer)
    (pushes : list (list sample * Z)) (k : nat) (w : world) :
  reachable c0 ->
  Forall well_formed_push pushes ->
  sum_lengths (map snd pushes) < stepThreshold ->
  exists c',
    run_calls (StreamStart (Some cb) ud :: map push_call (firstn k pushes))
      (Some c0) w = (Some c', w) /\
    stream_buffer c' =
      List.concat (map pushed_samples (firstn k pushes)) /\
    Z.of_nat (List.length (stream_buffer c')) =
      sum_lengths (map snd (firstn k pushes)) /\
    streaming c' = true /\
    stream_callback c' = Some cb /\
    stream_user_data c' = ud /\
    stream_step_samples c' = stepThreshold /\
    wctx c' = wctx c0 /\
    language c' = language c0 /\
    n_threads c' = n_threads c0 /\
    last_result_text c' = last_result_text c0 /\
    c' = set_stream_buffer (started c0 cb ud)
           (List.concat (map pushed_samples (firstn k pushes))).
Proof.
  intros Hreach Hwf Hsum.
  pose proof (inv_step c0 (reachable_inv c0 Hreach)) as Hstep.
  assert (Hwfk : Forall well_formed_push (firstn k pushes)).
  { apply Forall_forall. intros p Hin.
    rewrite Forall_forall in Hwf. apply Hwf.
    rewrite <- (firstn_skipn k pushes). apply in_or_app. now left. }
  assert (Hsumk : sum_lengths (map snd (firstn k pushes))
                  <= sum_lengths (map snd pushes)).
  { clear -Hwf. revert k. induction Hwf as [|p ps Hp Hps IH]; intros k.
    - rewrite firstn_nil. simpl. lia.
    - destruct k as [|k]; simpl.
      + pose proof (sum_lengths_nonneg ps Hps).
        unfold well_formed_push in Hp. lia.
      + specialize (IH k). lia. }
  exists (set_stream_buffer (started c0 cb ud)
            (List.concat (map pushed_samples (firstn k pushes)))).
  split.
  { cbn [run_calls]. unfold bind.
    cbn [run_call whisper_bridge_stream_start snd].
    unfold ret. fold (started c0 cb ud).
    rewrite run_pushes_below; try assumption; try reflexivity.
    cbn [stream_buffer started set_stream_buffer List.length]. lia. }
  split; [reflexivity|].
  split; [cbn [stream_buffer set_stream_buffer]; now apply pushed_total|].
  split; [reflexivity|]. split; [reflexivity|]. split; [reflexivity|].
  split; [exact Hstep|].
  repeat (split; [reflexivity|]). reflexivity.
Qed.

(** *** Language *)

(** C4.  On every valid session, setLanguage with the code "auto"
    succeeds and puts the session in detect-language mode: the
    parameters of the following inference passes ask for detection and
    name no language.  For every other code, one that the engine's
    language table does not know, setLanguage reports failure and
    leaves the session, its stored language included, exactly as it
    was.  (The code "auto" is settled by the first sentence whatever
    the table says of it; the second sentence is about the codes that
    reach the table.) *)
Theorem C4_set_language (c : whisper_bridge_context) :
  (whisper_bridge_set_language (Some c) (Some "auto")
     = (0, Some (set_language c "auto")) /\
   language (set_language c "auto") = "auto" /\
   p_detect_language (make_params (set_language c "auto")) = true /\
   p_language (make_params (set_language c "auto")) = None) /\
  (forall lang,
      lang <> "auto" ->
      whisper_lang_id lang < 0 ->
      whisper_bridge_set_language (Some c) (Some lang) = (-1, Some c) /\
      forall c', snd (whisper_bridge_set_language (Some c) (Some lang))
                 = Some c' ->
                 language c' = language c).
Proof.
  split.
  - repeat split.
  - intros lang Hne Hunknown.
    assert (Heq : whisper_bridge_set_language (Some c) (Some lang)
                  = (-1, Some c)).
    { unfold whisper_bridge_set_language.
      apply String.eqb_neq in Hne. rewrite Hne.
      apply Z.ltb_lt in Hunknown. now rewrite Hunknown. }
    split; [exact Heq|].
    rewrite Heq. now intros c' [= <-].
Qed.

(** *** Stop and rejected pushes *)

(** C5.  For every session, stop sets [streaming] to false
    unconditionally and clears the accumulator, the callback and the
    callback context; if the accumulator is empty, or the final
    inference pass fails, stop returns the empty sentinel result (empty
    text, zero segments, language id -1, zero duration) and has still
    cleared all three. *)
Theorem C5_stop_empty_sentinel (c : whisper_bridge_context) (w : world) :
  (exists res c' w',
      whisper_bridge_stream_stop (Some c) w = ((res, Some c'), w') /\
      streaming c' = false /\ stream_buffer c' = [] /\
      stream_callback c' = None /\ stream_user_data c' = None) /\
  (stream_buffer c = [] \/
   fst (whisper_full (wctx c) (make_params c) (stream_buffer c)
          (buffer_size32 c)) <> 0 ->
   exists c' w',
     whisper_bridge_stream_stop (Some c) w = ((empty, Some c'), w') /\
     streaming c' = false /\ stream_buffer c' = [] /\
     stream_callback c' = None /\ stream_user_data c' = None) /\
  text empty = EmptyString /\ segments empty = 0 /\ lang_id empty = -1 /\
  lang_prob empty = f32_zero /\ duration_ms empty = 0.
Proof.
  split; [apply stop_shape|].
  split; [|now simpl].
  intros H. unfold whisper_bridge_stream_stop.
  change (stream_buffer (set_streaming c false)) with (stream_buffer c).
  destruct (stream_buffer c) as [|x buf] eqn:Hb.
  - do 2 eexists. split; [reflexivity|]. now simpl.
  - destruct H as [H|H]; [discriminate|].
    unfold bind. rewrite now_add, run_full_eq.
    change (make_params (set_streaming c false)) with (make_params c).
    change (wctx (set_streaming c false)) with (wctx c).
    change (buffer_size32 (set_streaming c false)) with (buffer_size32 c).
    destruct (whisper_full _ _ _ _) as [r w1]; cbn [fst snd] in *.
    rewrite now_add.
    apply Z.eqb_neq in H. rewrite H.
    do 2 eexists. split; [reflexivity|]. now simpl.
Qed.

(** C6.  A push on a session that is not streaming (a context fresh
    from init, or one that stop has just returned) fails, with status
    -1, and changes neither the context nor the world; so does a push
    with a null or empty sample buffer. *)
Theorem C6_push_rejected (c : whisper_bridge_context)
    (data : option (list sample)) (len : Z) (w : world) :
  (streaming c = false ->
   whisper_bridge_stream_push (Some c) data len w = ((-1, Some c), w)) /\
  (forall path, whisper_bridge_init path = Some c ->
   whisper_bridge_stream_push (Some c) data len w = ((-1, Some c), w)) /\
  (forall c0 w0 res,
   whisper_bridge_stream_stop (Some c0) w0 = ((res, Some c), w) ->
   whisper_bridge_stream_push (Some c) data len w = ((-1, Some c), w)) /\
  (data = None \/ len <= 0 ->
   whisper_bridge_stream_push (Some c) data len w = ((-1, Some c), w)).
Proof.
  repeat split.
  - apply push_not_streaming.
  - intros path Hi. apply push_not_streaming.
    now apply init_not_streaming in Hi.
  - intros c0 w0 res Hstop. apply push_not_streaming.
    destruct (stop_shape c0 w0) as (res' & c' & w' & Heq & Hs & _).
    rewrite Heq in Hstop. now inversion Hstop; subst.
  - apply push_invalid.
Qed.

(** *** Init *)

(** C8 (amended).  For every model path that is null, or that the
    engine collaborator fails to load, init returns failure: no
    session object is produced.  A path that is not null, the empty
    string included, is handed to the engine, and init fails on it
    exactly when the engine does. *)
Theorem C8_init_failure (model_path : option string) :
  (model_path = None \/
   (exists path,
       model_path = Some path /\
       whisper_init_from_file_with_params path
         {| use_gpu := true;
            gpu_device := gpu_device whisper_context_default_params |}
       = None) ->
   whisper_bridge_init model_path = None) /\
  (forall path w,
      whisper_init_from_file_with_params path
        {| use_gpu := true;
           gpu_device := gpu_device whisper_context_default_params |}
      = Some w ->
      whisper_bridge_init (Some path) = Some (new_context w)).
Proof.
  split.
  - intros [-> | (path & -> & Hload)]; [reflexivity|].
    unfold whisper_bridge_init. now rewrite Hload.
  - intros path w Hload. unfold whisper_bridge_init. now rewrite Hload.
Qed.

(** *** The result text *)

(** C10 (amended).  In every successful transcription, batch or final
    streaming flush, the result text is built from the non-null
    segment texts in segment order: a text is appended after exactly
    one space when the text built so far is not empty, and with no
    separator when it is empty, so that the result is the non-null
    texts, without the empty ones that lead the sequence, joined by
    single spaces; null texts are skipped and add no separator.  The
    joined text is stored in the session's [last_result_text], which
    the call clears and rewrites: what it held before does not matter. *)
Theorem C10_result_text (c : whisper_bridge_context) (w : world) :
  (forall data len,
      0 < len ->
      fst (whisper_full (wctx c) (make_params c) data len) = 0 ->
      exists res c' w',
        whisper_bridge_transcribe (Some c) (Some data) len w
          = ((res, Some c'), w') /\
        wctx c' = snd (whisper_full (wctx c) (make_params c) data len) /\
        text res =
          joined (produced_texts (wctx c')
                    (whisper_full_n_segments (wctx c'))) /\
        last_result_text c' = text res) /\
  (stream_buffer c <> [] ->
   fst (whisper_full (wctx c) (make_params c) (stream_buffer c)
          (buffer_size32 c)) = 0 ->
   exists res c' w',
     whisper_bridge_stream_stop (Some c) w = ((res, Some c'), w') /\
     wctx c' = snd (whisper_full (wctx c) (make_params c) (stream_buffer c)
                      (buffer_size32 c)) /\
     text res =
       joined (produced_texts (wctx c')
                 (whisper_full_n_segments (wctx c'))) /\
     last_result_text c' = text res).
Proof.
  split.
  - intros data len Hlen Hok.
    unfold whisper_bridge_transcribe.
    apply Z.leb_gt in Hlen. rewrite Hlen.
    unfold bind. rewrite now_add, run_full_eq.
    destruct (whisper_full (wctx c) (make_params c) data len) as [r w1].
    cbn [fst snd] in *. subst r. cbn [Z.eqb negb].
    rewrite now_add, make_result_eq. unfold ret.
    do 3 eexists. split; [reflexivity|]. now simpl.
  - intros Hbuf Hok.
    unfold whisper_bridge_stream_stop.
    change (stream_buffer (set_streaming c false)) with (stream_buffer c).
    destruct (stream_buffer c) as [|x buf] eqn:Hb; [congruence|].
    unfold bind. rewrite now_add, run_full_eq.
    change (make_params (set_streaming c false)) with (make_params c).
    change (wctx (set_streaming c false)) with (wctx c).
    change (buffer_size32 (set_streaming c false)) with (buffer_size32 c).
    destruct (whisper_full (wctx c) (make_params c) (x :: buf)
                (buffer_size32 c)) as [r w1].
    cbn [fst snd] in *. subst r. rewrite now_add. cbn [Z.eqb].
    rewrite fire_callbacks_eq, make_result_eq. unfold ret.
    do 3 eexists. split; [reflexivity|]. now simpl.
Qed.

(** *** Sessions whose pushes fit in 32 bits *)

Lemma new_context_inv w : bounded_inv (new_context w).
Proof.
  split; [split|]; simpl; try reflexivity; discriminate.
Qed.

Lemma push_bounded_inv c data len w :
  bounded_inv c -> len <= 2147483647 - stepThreshold ->
  exists r c' w',
    whisper_bridge_stream_push (Some c) data len w = ((r, Some c'), w') /\
    bounded_inv c' /\
    (w' <> w ->
     Z.of_nat (List.length (stream_buffer c')) <= overlapRetention).
Proof.
  intros [[Hstep Hcb Hidle] Hsz] Hlen. unfold stepThreshold in *.
  destruct data as [d|];
    [|exists (-1), c, w; repeat split; auto; congruence].
  destruct (Z_le_gt_dec len 0) as [Hle|Hgt].
  { rewrite push_invalid by now right.
    exists (-1), c, w; repeat split; auto; congruence. }
  destruct (streaming c) eqn:Hs.
  2:{ rewrite push_not_streaming by assumption.
      exists (-1), c, w; repeat split; auto; congruence. }
  assert (Hlen' : Z.of_nat (List.length (appended c d len))
                  <= Z.of_nat (List.length (stream_buffer c)) + len).
  { unfold appended. rewrite length_app, length_firstn. lia. }
  assert (Hcast : cast_int32 (Z.of_nat (List.length (appended c d len)))
                  = Z.of_nat (List.length (appended c d len)))
    by (apply cast_int32_small; lia).
  destruct (Z_lt_ge_dec (Z.of_nat (List.length (appended c d len))) 32000)
    as [Hlt|Hge].
  - rewrite push_append by (assumption || lia).
    do 3 eexists. split; [reflexivity|].
    split; [|congruence].
    split; [split|]; cbn [streaming stream_buffer stream_callback
                          stream_step_samples set_stream_buffer];
      auto; congruence.
  - rewrite push_flush by (unfold overlapRetention; assumption || lia).
    assert (Hkeep : Z.of_nat (List.length
                      (erase_front overlapRetention (appended c d len)))
                    = overlapRetention)
      by (apply erase_front_length; unfold overlapRetention; lia).
    do 3 eexists. split; [reflexivity|].
    unfold flushed.
    repeat split;
      cbn [streaming stream_buffer stream_callback stream_step_samples
           set_stream_buffer set_wctx];
      rewrite ?Hkeep; unfold overlapRetention, stepThreshold;
      try assumption; try lia;
      try (intros _; now apply Hcb); intros; congruence.
Qed.

Lemma run_call_bounded_inv k c w :
  bounded_inv c -> bounded_call k ->
  exists c' w', run_call k (Some c) w = (Some c', w') /\ bounded_inv c'.
Proof.
  intros Hinv Hk. pose proof Hinv as [[Hstep Hcb Hidle] Hsz].
  destruct k as [lang|n|d n|cb ud|d n|]; cbn [run_call bounded_call] in *.
  - unfold ret, whisper_bridge_set_language.
    destruct lang as [l|]; [|now exists c, w].
    destruct (String.eqb l "auto");
      [|destruct (whisper_lang_id l <? 0)];
      do 2 eexists; (split; [reflexivity|]); try exact Hinv;
      (split; [split|]); auto.
  - unfold ret. do 2 eexists. split; [reflexivity|].
    split; [split|]; auto.
  - destruct (transcribe_frame c d n w)
      as (res & c' & w' & Heq & Hs & Hb & Hc & Ht).
    unfold bind. rewrite Heq. unfold ret. cbn [snd].
    exists c', w'. split; [reflexivity|].
    split; [split|]; rewrite ?Hs, ?Hb, ?Hc, ?Ht; auto.
  - unfold ret, whisper_bridge_stream_start.
    destruct cb as [cb|]; [|now exists c, w].
    do 2 eexists. split; [reflexivity|].
    split; [split|]; simpl; auto; try discriminate.
    unfold stepThreshold; lia.
  - destruct (push_bounded_inv c d n w Hinv Hk)
      as (r & c' & w' & Heq & Hinv' & _).
    unfold bind. rewrite Heq. unfold ret. now exists c', w'.
  - destruct (stop_shape c w) as (res & c' & w' & Heq & Hs & Hb & Hc & _).
    pose proof (stop_step _ _ _ _ _ Heq) as Ht.
    unfold bind. rewrite Heq. unfold ret. cbn [snd].
    exists c', w'. split; [reflexivity|].
    split; [split|]; rewrite ?Hb, ?Ht; auto; try congruence.
    simpl. unfold stepThreshold; lia.
Qed.

(** In a session whose pushes are too short to overflow the narrowed
    size, the accumulator stays below the threshold between calls. *)
Lemma bounded_session_accumulator ks c w :
  bounded_inv c -> Forall bounded_call ks ->
  exists c' w', run_calls ks (Some c) w = (Some c', w') /\ bounded_inv c'.
Proof.
  intros Hinv Hks. revert c w Hinv.
  induction Hks as [|k ks Hk _ IH]; intros c w Hinv.
  - now exists c, w.
  - destruct (run_call_bounded_inv k c w Hinv Hk) as (c1 & w1 & Heq & Hinv1).
    destruct (IH c1 w1 Hinv1) as (c2 & w2 & Heq2 & Hinv2).
    exists c2, w2. cbn [run_calls]. unfold bind. now rewrite Heq.
Qed.

(** What C7 asks, for sessions whose pushes cannot overflow the
    narrowed size: after a push the accumulator is empty or shorter
    than stepThreshold plus the length of the push, and holds at most
    overlapRetention samples if the push flushed; after a stop it is
    empty. *)
Lemma bounded_session_after_call ks k path c0 w0 :
  whisper_bridge_init path = Some c0 ->
  Forall bounded_call ks -> bounded_call k ->
  exists c1 w1 c2 w2,
    run_calls ks (Some c0) w0 = (Some c1, w1) /\
    run_call k (Some c1) w1 = (Some c2, w2) /\
    match k with
    | StreamPush _ len =>
        (Z.of_nat (List.length (stream_buffer c2)) = 0 \/
         Z.of_nat (List.length (stream_buffer c2))
           < stepThreshold + push_length len) /\
        (w2 <> w1 ->
         Z.of_nat (List.length (stream_buffer c2)) <= overlapRetention)
    | StreamStop => stream_buffer c2 = []
    | _ => True
    end.
Proof.
  intros Hinit Hks Hk.
  assert (H0 : bounded_inv c0).
  { unfold whisper_bridge_init in Hinit.
    destruct path as [p|]; [|discriminate].
    destruct (whisper_init_from_file_with_params _ _); [|discriminate].
    injection Hinit as <-. apply new_context_inv. }
  destruct (bounded_session_accumulator ks c0 w0 H0 Hks)
    as (c1 & w1 & Hrun & H1).
  exists c1, w1.
  destruct k as [lang|n|d n|cb ud|d n|].
  - destruct (run_call_bounded_inv (SetLanguage lang) c1 w1 H1 Hk)
      as (c2 & w2 & Heq & _). now exists c2, w2.
  - destruct (run_call_bounded_inv (SetThreads n) c1 w1 H1 Hk)
      as (c2 & w2 & Heq & _). now exists c2, w2.
  - destruct (run_call_bounded_inv (Transcribe d n) c1 w1 H1 Hk)
      as (c2 & w2 & Heq & _). now exists c2, w2.
  - destruct (run_call_bounded_inv (StreamStart cb ud) c1 w1 H1 Hk)
      as (c2 & w2 & Heq & _). now exists c2, w2.
  - destruct (push_bounded_inv c1 d n w1 H1 Hk)
      as (r & c2 & w2 & Heq & [_ Hsz] & Hflush).
    exists c2, w2. split; [exact Hrun|].
    cbn [run_call]. unfold bind, ret. rewrite Heq. cbn [snd].
    split; [reflexivity|]. split; [|exact Hflush].
    right. unfold push_length. lia.
  - destruct (stop_shape c1 w1) as (res & c2 & w2 & Heq & _ & Hb & _).
    exists c2, w2. split; [exact Hrun|].
    cbn [run_call]. unfold bind, ret. rewrite Heq. cbn [snd].
    split; [reflexivity|exact Hb].
Qed.

(** *** Pushes that overflow the narrowed size *)

(** Three pushes [a], [b], [d] after a start.  When [a ++ b] holds
    2^31 samples or more, the narrowed size is negative at the second
    push and at the third, and neither flushes: nothing reaches the
    engine and the accumulator keeps everything. *)
Lemma pushes_past_int32 c0 cb ud (a b d : list sample) w :
  stream_step_samples c0 = stepThreshold ->
  0 < Z.of_nat (List.length a) < stepThreshold ->
  0 < Z.of_nat (List.length d) ->
  2147483648 <= Z.of_nat (List.length a) + Z.of_nat (List.length b) ->
  Z.of_nat (List.length a) + Z.of_nat (List.length b)
    + Z.of_nat (List.length d) < 2147483648 + stepThreshold ->
  run_calls
    [StreamStart (Some cb) ud;
     StreamPush (Some a) (Z.of_nat (List.length a));
     StreamPush (Some b) (Z.of_nat (List.length b));
     StreamPush (Some d) (Z.of_nat (List.length d))]
    (Some c0) w =
  (Some (set_stream_buffer (started c0 cb ud) ((a ++ b) ++ d)), w).
Proof.
  intros Hstep Ha Hd Hab Habd. unfold stepThreshold in *.
  cbn [run_calls run_call]. unfold bind, ret.
  cbn [whisper_bridge_stream_start snd]. fold (started c0 cb ud).
  rewrite push_append; cycle 1.
  { reflexivity. }
  { lia. }
  { unfold appended. rewrite firstn_whole.
    cbn [stream_buffer started set_stream_buffer app].
    rewrite cast_int32_small by lia.
    cbn [stream_step_samples started set_stream_buffer set_stream_callback
         set_streaming]. lia. }
  cbn [snd]. unfold appended at 1. rewrite firstn_whole.
  cbn [stream_buffer started set_stream_buffer app].
  rewrite push_append; cycle 1.
  { reflexivity. }
  { lia. }
  { unfold appended. rewrite firstn_whole.
    cbn [stream_buffer set_stream_buffer].
    rewrite length_app, Nat2Z.inj_add, cast_int32_wrap by lia.
    cbn [stream_step_samples started set_stream_buffer set_stream_callback
         set_streaming]. lia. }
  cbn [snd]. unfold appended at 1. rewrite firstn_whole.
  cbn [stream_buffer set_stream_buffer].
  rewrite push_append; cycle 1.
  { reflexivity. }
  { lia. }
  { unfold appended. rewrite firstn_whole.
    cbn [stream_buffer set_stream_buffer].
    rewrite !length_app, !Nat2Z.inj_add, cast_int32_wrap by lia.
    cbn [stream_step_samples started set_stream_buffer set_stream_callback
         set_streaming]. lia. }
  cbn [snd]. unfold appended. rewrite firstn_whole.
  reflexivity.
Qed.

End Properties.

(** ** PCM conversion *)

Lemma count_up_complete n lo v :
  lo <= v < lo + Z.of_nat n -> In v (count_up lo n).
Proof.
  revert lo. induction n as [|n IH]; intros lo H; [lia|].
  cbn [count_up]. destruct (Z.eq_dec lo v) as [->|Hne]; [now left|].
  right. apply IH. lia.
Qed.

Lemma int16_values_complete v : is_int16 v -> In v int16_values.
Proof.
  unfold is_int16, int16_values, INT16_MIN, INT16_MAX. intros H.
  apply count_up_complete. lia.
Qed.

Lemma pcm16_sample_exact_all :
  forallb (fun v => float_isb (pcm16_sample v) (pcm16_exact v)) int16_values
  = true.
Proof. vm_compute. reflexivity. Qed.

Lemma float_isb_is x q : float_isb x q = true -> float_is x q.
Proof.
  unfold float_isb, float_is.
  destruct (float_value x); [apply Qeq_bool_iff|discriminate].
Qed.

Lemma pcm16_sample_exact v :
  is_int16 v -> float_is (pcm16_sample v) (pcm16_exact v).
Proof.
  intros H. apply float_isb_is.
  pose proof pcm16_sample_exact_all as Hall.
  rewrite forallb_forall in Hall.
  now apply Hall, int16_values_complete.
Qed.

Lemma store_length {A} (l : list A) i v :
  List.length (store l i v) = List.length l.
Proof.
  revert i. induction l as [|x l IH]; intros [|i]; simpl; auto.
Qed.

Lemma store_nth_same {A} (l : list A) i v x :
  (i < List.length l)%nat -> nth i (store l i v) x = v.
Proof.
  revert i. induction l as [|y l IH]; intros [|i] H; simpl in *;
    try lia; auto with arith.
Qed.

Lemma store_nth_other {A} (l : list A) i j v x :
  i <> j -> nth j (store l i v) x = nth j l x.
Proof.
  revert i j. induction l as [|y l IH]; intros [|i] [|j] H; simpl;
    try congruence; auto.
Qed.

Lemma indices_succ (n : nat) :
  indices (Z.of_nat (S n)) = indices (Z.of_nat n) ++ [Z.of_nat n].
Proof.
  unfold indices. rewrite !Nat2Z.id, seq_S, map_app. reflexivity.
Qed.

Lemma pcm16_loop_spec s d x (n : nat) :
  (n <= List.length d)%nat ->
  List.length (pcm16_loop s (indices (Z.of_nat n)) d) = List.length d /\
  forall i,
    nth i (pcm16_loop s (indices (Z.of_nat n)) d) x =
    if (i <? n)%nat then pcm16_sample (nth i s 0) else nth i d x.
Proof.
  induction n as [|n IH]; intros Hn.
  - split; [reflexivity|]. intros i. reflexivity.
  - destruct IH as [IHlen IHnth]; [lia|].
    rewrite indices_succ. unfold pcm16_loop in *.
    rewrite fold_left_app. cbn [fold_left]. rewrite Nat2Z.id.
    split; [now rewrite store_length|].
    intros i. destruct (Nat.eq_dec n i) as [<-|Hne].
    + rewrite store_nth_same by lia.
      now rewrite (proj2 (Nat.ltb_lt n (S n))) by lia.
    + rewrite store_nth_other, IHnth by assumption.
      destruct (Nat.ltb_spec i n), (Nat.ltb_spec i (S n));
        try reflexivity; lia.
Qed.

(** C9.  For every block of [n] int16 samples and every index [i]
    within it, the conversion writes into [dst[i]] the float
    [src[i] / 32768.0f], a finite binary32 number that stands for the
    rational [src[i] / 32768] exactly: neither the conversion of the
    integer nor the division rounds or clamps.  In particular 0 gives
    +0.0 and -32768 gives -1.0. *)
Theorem C9_pcm16_to_f32_exact (src : list Z) (dst : list float) (n : Z)
    (i : nat) :
  Forall is_int16 src ->
  0 < n ->
  n <= Z.of_nat (List.length src) ->
  n <= Z.of_nat (List.length dst) ->
  (Z.of_nat i < n) ->
  (exists out,
      whisper_bridge_pcm16_to_f32 (Some src) (Some dst) n = Some out /\
      List.length out = List.length dst /\
      nth i out S754_nan = pcm16_sample (nth i src 0) /\
      float_is (nth i out S754_nan) (pcm16_exact (nth i src 0))) /\
  pcm16_sample 0 = S754_zero false /\
  pcm16_sample (-32768) = S754_finite true 8388608 (-23) /\
  float_is (S754_finite true 8388608 (-23)) (-1).
Proof.
  intros Hsrc Hn Hs Hd Hi.
  split; [|repeat split].
  unfold whisper_bridge_pcm16_to_f32.
  apply Z.leb_gt in Hn as Hn'. rewrite Hn'.
  eexists. split; [reflexivity|].
  fold (pcm16_loop src (indices n) dst).
  rewrite <- (Z2Nat.id n) by lia.
  destruct (pcm16_loop_spec src dst S754_nan (Z.to_nat n)) as [Hlen Hnth];
    [lia|].
  split; [exact Hlen|].
  rewrite Hnth. rewrite (proj2 (Nat.ltb_lt i (Z.to_nat n))) by lia.
  split; [reflexivity|].
  apply pcm16_sample_exact.
  rewrite Forall_forall in Hsrc. apply Hsrc, nth_In. lia.
Qed.

(** ** Concrete runs on the scripted engine *)

Import Scripted.

(** The contexts [live] are those of started sessions: a start with
    callback 7 and user data 42 and one push of [buf], too short to
    flush, lead from init to [live sc buf]. *)
Lemma live_reached sc (buf : list sample) :
  0 < Z.of_nat (List.length buf) < stepThreshold ->
  run_calls (E := eng sc)
    [StreamStart (Some 7) (Some 42);
     StreamPush (Some buf) (Z.of_nat (List.length buf))]
    (whisper_bridge_init (E := eng sc) (Some "ggml-base.bin")) world0 =
  (Some (live sc buf), world0).
Proof.
  intros Hbuf. unfold stepThreshold in Hbuf.
  change (whisper_bridge_init (E := eng sc) (Some "ggml-base.bin"))
    with (Some (fresh sc)).
  cbn [run_calls run_call]. unfold bind, ret.
  cbn [whisper_bridge_stream_start snd].
  fold (started (E := eng sc) (fresh sc) 7 (Some 42)).
  rewrite push_append.
  - unfold appended. rewrite firstn_whole. reflexivity.
  - reflexivity.
  - lia.
  - unfold appended. rewrite firstn_whole.
    cbn [stream_buffer started set_stream_buffer app].
    rewrite cast_int32_small by lia.
    cbn [stream_step_samples started set_stream_buffer set_stream_callback
         set_streaming fresh new_context]. lia.
Qed.

Lemma fresh_reachable sc : reachable (E := eng sc) (fresh sc).
Proof.
  exists (Some "ggml-base.bin"), (fresh sc), [], world0, world0.
  split; reflexivity.
Qed.

Lemma live_reachable sc (buf : list sample) :
  0 < Z.of_nat (List.length buf) < stepThreshold ->
  reachable (E := eng sc) (live sc buf).
Proof.
  intros Hbuf.
  exists (Some "ggml-base.bin"), (fresh sc),
    [StreamStart (Some 7) (Some 42);
     StreamPush (Some buf) (Z.of_nat (List.length buf))],
    world0, world0.
  split; [reflexivity|]. now apply live_reached.
Qed.

(** C1, as stated, fails: the engine produces two segments, the second
    with a null text; the flush invokes the callback once, not once per
    produced segment. *)
Lemma C1_callback_skips_null_text :
  match
    whisper_bridge_stream_push (E := eng [(0, [Some "a"; None])])
      (Some (live [(0, [Some "a"; None])] (silence 31999)))
      (Some (silence 1)) 1 world0
  with
  | ((r, Some c), w) =>
      r = 0 /\
      whisper_full_n_segments (wctx c) = 2 /\
      filter is_callback (w_trace w) = [EvCallback 7 "a" 0 (Some 42)] /\
      Z.of_nat (List.length (filter is_callback (w_trace w)))
        <> whisper_full_n_segments (wctx c)
  | _ => False
  end.
Proof. vm_compute. repeat split. discriminate. Qed.

(** A run of C1: 31999 samples are buffered and one more is pushed;
    the pass succeeds with the texts a, null, b. *)
Lemma C1_push_flush_witness :
  exists cb,
    stream_callback (live script_ab (silence 31999)) = Some cb /\
    whisper_bridge_stream_push (E := eng script_ab)
      (Some (live script_ab (silence 31999))) (Some (silence 1)) 1 world0 =
    ((0, Some (after_flush (live script_ab (silence 31999)) (silence 1) 1)),
     add_events world0
       (EvFull
          (with_single_segment
             (make_params (live script_ab (silence 31999))))
          (appended (live script_ab (silence 31999)) (silence 1) 1)
          (Z.of_nat
             (List.length
                (appended (live script_ab (silence 31999)) (silence 1) 1)))
        :: (if fst (whisper_full (wctx (live script_ab (silence 31999)))
                      (with_single_segment
                         (make_params (live script_ab (silence 31999))))
                      (appended (live script_ab (silence 31999))
                         (silence 1) 1)
                      (Z.of_nat
                         (List.length
                            (appended (live script_ab (silence 31999))
                               (silence 1) 1)))) =? 0
            then deliveries cb
                   (stream_user_data (live script_ab (silence 31999)))
                   (wctx (after_flush (live script_ab (silence 31999))
                            (silence 1) 1))
            else []))) /\
    Z.of_nat
      (List.length
         (stream_buffer
            (after_flush (live script_ab (silence 31999)) (silence 1) 1))) =
    Z.min overlapRetention
      (Z.of_nat
         (List.length
            (appended (live script_ab (silence 31999)) (silence 1) 1))).
Proof.
  destruct (C1_push_flush (E := eng script_ab)
              (live script_ab (silence 31999)) (silence 1) 1 world0)
    as (cb & Hcb & Hpush & _ & _ & _ & Hlen).
  - apply live_reachable. vm_compute. split; reflexivity.
  - reflexivity.
  - reflexivity.
  - vm_compute. split; [discriminate|reflexivity].
  - exists cb. split; [exact Hcb|]. split; [exact Hpush|exact Hlen].
Defined.

(** A run of C2: a start, then chunks of 3 and 4 samples; the
    accumulator holds the 7 samples. *)
Lemma C2_pushes_below_threshold_witness :
  (exists c',
      run_calls (E := eng [])
        (StreamStart (Some 7) (Some 42)
         :: map push_call (firstn 2 [(silence 3, 3); (silence 5, 4)]))
        (Some (fresh [])) world0 = (Some c', world0) /\
      stream_buffer c' =
        List.concat
          (map pushed_samples (firstn 2 [(silence 3, 3); (silence 5, 4)])) /\
      Z.of_nat (List.length (stream_buffer c')) =
        sum_lengths (map snd (firstn 2 [(silence 3, 3); (silence 5, 4)])) /\
      streaming c' = true /\
      stream_callback c' = Some 7 /\
      stream_user_data c' = Some 42 /\
      stream_step_samples c' = stepThreshold /\
      wctx c' = wctx (fresh []) /\
      language c' = language (fresh []) /\
      n_threads c' = n_threads (fresh []) /\
      last_result_text c' = last_result_text (fresh []) /\
      c' = set_stream_buffer (started (fresh []) 7 (Some 42))
             (List.concat
                (map pushed_samples
                   (firstn 2 [(silence 3, 3); (silence 5, 4)])))) /\
  List.concat (map pushed_samples (firstn 2 [(silence 3, 3); (silence 5, 4)]))
  = silence 7 /\
  sum_lengths (map snd (firstn 2 [(silence 3, 3); (silence 5, 4)])) = 7.
Proof.
  split; [|split; reflexivity].
  apply (C2_pushes_below_threshold (E := eng [])).
  - apply fresh_reachable.
  - repeat constructor; simpl; lia.
  - reflexivity.
Defined.

(** A run of C3: the push of the 32000th sample meets a failing pass. *)
Lemma C3_failed_flush_witness :
  whisper_bridge_stream_push (E := eng [(1, [])])
    (Some (live [(1, [])] (silence 31999))) (Some (silence 1)) 1 world0 =
  ((0, Some (after_flush (live [(1, [])] (silence 31999)) (silence 1) 1)),
   add_events world0
     [EvFull (with_single_segment
                (make_params (live [(1, [])] (silence 31999))))
        (appended (live [(1, [])] (silence 31999)) (silence 1) 1)
        (push_size (live [(1, [])] (silence 31999)) (silence 1) 1)]) /\
  Z.of_nat
    (List.length
       (stream_buffer
          (after_flush (live [(1, [])] (silence 31999)) (silence 1) 1)))
  = 8000 /\
  streaming (after_flush (live [(1, [])] (silence 31999)) (silence 1) 1)
  = true.
Proof.
  destruct (C3_failed_flush (E := eng [(1, [])])
              (live [(1, [])] (silence 31999)) (silence 1) 1 world0)
    as (Hpush & _ & Hlen & Hs & _).
  - apply live_reachable. vm_compute. split; reflexivity.
  - reflexivity.
  - reflexivity.
  - vm_compute. discriminate.
  - vm_compute. discriminate.
  - split; [exact Hpush|split; [exact Hlen|exact Hs]].
Defined.

(** A run of C4: the code xx is not in the table. *)
Lemma C4_set_language_witness :
  whisper_bridge_set_language (E := eng []) (Some (fresh [])) (Some "xx")
  = (-1, Some (fresh [])) /\
  forall c',
    snd (whisper_bridge_set_language (E := eng []) (Some (fresh []))
           (Some "xx")) = Some c' ->
    language c' = language (fresh []).
Proof.
  apply (proj2 (C4_set_language (E := eng []) (fresh [])) "xx").
  - discriminate.
  - reflexivity.
Defined.

(** A run of C5: a stop with nothing buffered. *)
Lemma C5_stop_empty_sentinel_witness :
  exists c' w',
    whisper_bridge_stream_stop (E := eng []) (Some (live [] [])) world0
    = ((empty, Some c'), w') /\
    streaming c' = false /\ stream_buffer c' = [] /\
    stream_callback c' = None /\ stream_user_data c' = None.
Proof.
  apply (proj1 (proj2 (C5_stop_empty_sentinel (E := eng []) (live [] [])
                         world0))).
  left. reflexivity.
Defined.

(** Runs of C6: a push before any start, and an empty push. *)
Lemma C6_push_rejected_witness :
  whisper_bridge_stream_push (E := eng []) (Some (fresh []))
    (Some (silence 1)) 1 world0
  = ((-1, Some (fresh [])), world0) /\
  whisper_bridge_stream_push (E := eng []) (Some (live [] (silence 1)))
    (Some (silence 1)) 0 world0
  = ((-1, Some (live [] (silence 1))), world0).
Proof.
  split.
  - apply (proj1 (C6_push_rejected (E := eng []) (fresh [])
                    (Some (silence 1)) 1 world0)).
    reflexivity.
  - apply (proj2 (proj2 (proj2
             (C6_push_rejected (E := eng []) (live [] (silence 1))
                (Some (silence 1)) 0 world0)))).
    right. lia.
Defined.

(** C7 fails on the code.  After a start, push 1 sample, then
    2147483647 samples, then 1 sample.  The accumulator holds 2^31
    samples at the second push and 2^31 + 1 at the third; narrowed to
    32 bits both sizes are negative, so neither push flushes: the world
    is untouched and the accumulator holds 2147483649 samples, which is
    neither 0 nor below stepThreshold plus the length (1) of the push
    that just ran. *)
Theorem C7_accumulator_unbounded_past_int32 :
  run_calls (E := eng [])
    [StreamStart (Some 7) (Some 42);
     StreamPush (Some (silence 1)) 1;
     StreamPush (Some (silence 2147483647)) 2147483647;
     StreamPush (Some (silence 1)) 1]
    (whisper_bridge_init (E := eng []) (Some "ggml-base.bin")) world0 =
  (Some (live [] ((silence 1 ++ silence 2147483647) ++ silence 1)),
   world0) /\
  streaming (live [] ((silence 1 ++ silence 2147483647) ++ silence 1))
  = true /\
  Z.of_nat
    (List.length
       (stream_buffer
          (live [] ((silence 1 ++ silence 2147483647) ++ silence 1))))
  = 2147483649 /\
  ~ (2147483649 = 0 \/ 2147483649 < stepThreshold + push_length 1).
Proof.
  change (whisper_bridge_init (E := eng []) (Some "ggml-base.bin"))
    with (Some (fresh [])).
  assert (Hbig : Z.of_nat (List.length (silence 2147483647)) = 2147483647).
  { unfold silence. rewrite repeat_length. lia. }
  assert (Hone : Z.of_nat (List.length (silence 1)) = 1) by reflexivity.
  generalize dependent (silence 2147483647). intros big Hbig.
  generalize dependent (silence 1). intros one Hone.
  pose proof (pushes_past_int32 (E := eng []) (fresh []) 7 (Some 42)
                one big one world0) as Hrun.
  rewrite Hbig, Hone in Hrun.
  unfold whisper_bridge_segment_callback in Hrun. rewrite Hrun.
  - split; [reflexivity|]. split; [reflexivity|].
    unfold live. cbn [stream_buffer set_stream_buffer].
    rewrite !length_app, !Nat2Z.inj_add, Hbig, Hone.
    unfold stepThreshold, push_length. split; [reflexivity|]. lia.
  - reflexivity.
  - unfold stepThreshold. lia.
  - lia.
  - lia.
  - unfold stepThreshold. lia.
Qed.

(** C8, as stated, fails: the empty path is not refused by the bridge;
    with an engine that loads it, init returns a session. *)
Lemma C8_empty_path_not_refused :
  whisper_bridge_init (E := engine (any_model [])) (Some EmptyString)
  = Some (new_context (E := engine (any_model []))
            {| script := []; result := [] |}) /\
  whisper_bridge_init (E := engine (any_model [])) (Some EmptyString) <> None.
Proof. split; [reflexivity|discriminate]. Qed.

(** Runs of C8: a null path, and a path the engine does not load. *)
Lemma C8_init_failure_witness :
  whisper_bridge_init (E := eng []) None = None /\
  whisper_bridge_init (E := eng []) (Some "missing.bin") = None.
Proof.
  split.
  - apply (proj1 (C8_init_failure (E := eng []) None)).
    left. reflexivity.
  - apply (proj1 (C8_init_failure (E := eng []) (Some "missing.bin"))).
    right. exists "missing.bin". split; reflexivity.
Defined.

(** A run of C9: the block 0, 32767, -32768 at index 1. *)
Lemma C9_pcm16_to_f32_exact_witness :
  exists out,
    whisper_bridge_pcm16_to_f32 (Some [0; 32767; -32768])
      (Some [S754_nan; S754_nan; S754_nan]) 3 = Some out /\
    List.length out = List.length [S754_nan; S754_nan; S754_nan] /\
    nth 1 out S754_nan = pcm16_sample (nth 1 [0; 32767; -32768] 0) /\
    float_is (nth 1 out S754_nan)
      (pcm16_exact (nth 1 [0; 32767; -32768] 0)).
Proof.
  refine (proj1 (C9_pcm16_to_f32_exact [0; 32767; -32768]
                   [S754_nan; S754_nan; S754_nan] 3 1 _ _ _ _ _)).
  - repeat (apply Forall_cons;
            [unfold is_int16, INT16_MIN, INT16_MAX; lia|]).
    apply Forall_nil.
  - lia.
  - simpl; lia.
  - simpl; lia.
  - lia.
Defined.

(** C10, as stated, fails: with an empty segment text and then "a" the
    result text is "a", with no separator between the two texts. *)
Lemma C10_no_separator_after_empty_text :
  match
    whisper_bridge_transcribe (E := eng [(0, [Some EmptyString; Some "a"])])
      (Some (fresh [(0, [Some EmptyString; Some "a"])])) (Some (silence 1)) 1 world0
  with
  | ((res, Some c), w) =>
      produced_texts (wctx c) (whisper_full_n_segments (wctx c)) = [EmptyString; "a"] /\
      text res = "a" /\
      String.concat " "
        (produced_texts (wctx c) (whisper_full_n_segments (wctx c))) = " a" /\
      text res <>
        String.concat " "
          (produced_texts (wctx c) (whisper_full_n_segments (wctx c)))
  | _ => False
  end.
Proof. vm_compute. repeat split. discriminate. Qed.

(** A run of C10: a batch transcription with the texts a, null, b. *)
Lemma C10_result_text_witness :
  exists res c' w',
    whisper_bridge_transcribe (E := eng script_ab) (Some (fresh script_ab))
      (Some (silence 1)) 1 world0 = ((res, Some c'), w') /\
    wctx c' = snd (whisper_full (wctx (fresh script_ab))
                     (make_params (fresh script_ab)) (silence 1) 1) /\
    text res =
      joined (produced_texts (wctx c') (whisper_full_n_segments (wctx c'))) /\
    last_result_text c' = text res.
Proof.
  apply (proj1 (C10_result_text (E := eng script_ab) (fresh script_ab)
                  world0)).
  - reflexivity.
  - reflexivity.
Defined.

(** ** Session-wide properties *)

Section SessionProperties.

Context {E : Engine}.

(** *** What one call does *)

(** The three ways a push ends: rejected, appended, or flushed (with
    the accumulator cut to its tail when it is longer than the tail). *)
Lemma push_cases c data len w :
  ((data = None \/ len <= 0 \/ streaming c = false) /\
   whisper_bridge_stream_push (Some c) data len w = ((-1, Some c), w)) \/
  exists d,
    data = Some d /\ 0 < len /\ streaming c = true /\
    (whisper_bridge_stream_push (Some c) data len w =
       ((0, Some (set_stream_buffer c (appended c d len))), w) \/
     exists kept,
       (kept = appended c d len \/
        kept = erase_front overlapRetention (appended c d len)) /\
       whisper_bridge_stream_push (Some c) data len w =
         ((0, Some (set_stream_buffer (flushed c (appended c d len)) kept)),
          add_events w (flush_events c (appended c d len)))).
Proof.
  destruct data as [d|]; [|left; split; [now left|reflexivity]].
  destruct (Z_le_gt_dec len 0) as [Hle|Hgt].
  { left. split; [now right; left|]. apply push_invalid. now right. }
  destruct (streaming c) eqn:Hs.
  2:{ left. split; [now right; right|]. now apply push_not_streaming. }
  right. exists d. split; [reflexivity|]. split; [lia|].
  split; [reflexivity|].
  unfold whisper_bridge_stream_push.
  assert (Hl : (len <=? 0) = false) by (apply Z.leb_gt; lia).
  rewrite Hl, Hs. cbn [negb].
  fold (appended c d len).
  match goal with
  | |- context [if ?b then _ else _] => destruct b
  end; [right|now left].
  unfold bind. rewrite run_full_eq.
  unfold flush_events, flushed, buffer_size32.
  cbn [stream_buffer set_stream_buffer wctx].
  change (make_params (set_stream_buffer c (appended c d len)))
    with (make_params c).
  destruct (whisper_full _ _ _ _) as [r w1]; cbn [fst snd].
  change (16000 / 2) with overlapRetention.
  cbn [stream_buffer set_wctx set_stream_buffer].
  destruct (r =? 0);
    [rewrite fire_callbacks_eq, add_events_app|unfold ret];
    match goal with
    | |- context [if ?b then _ else _] => destruct b
    end;
    eexists; (split; [|reflexivity]); auto.
Qed.

(** The ways a batch transcription ends: rejected, failed, or done. *)
Lemma transcribe_cases c data len w :
  ((data = None \/ len <= 0) /\
   whisper_bridge_transcribe (Some c) data len w = ((empty, Some c), w)) \/
  exists d,
    data = Some d /\ 0 < len /\
    ((batch_status c d len <> 0 /\
      whisper_bridge_transcribe (Some c) data len w =
        ((empty, Some (batch_ctx c d len)),
         add_events (add_ticks w 1) [EvFull (make_params c) d len])) \/
     (batch_status c d len = 0 /\
      whisper_bridge_transcribe (Some c) data len w =
        ((result_of (batch_ctx c d len) w,
          Some (set_last_result_text (batch_ctx c d len)
                  (text (result_of (batch_ctx c d len) w)))),
         add_ticks
           (add_events (add_ticks w 1) [EvFull (make_params c) d len]) 1))).
Proof.
  destruct data as [d|]; [|left; split; [now left|reflexivity]].
  destruct (Z_le_gt_dec len 0) as [Hle|Hgt].
  { left. split; [now right|]. unfold whisper_bridge_transcribe.
    apply Z.leb_le in Hle. now rewrite Hle. }
  right. exists d. split; [reflexivity|]. split; [lia|].
  unfold whisper_bridge_transcribe, batch_status, batch_ctx.
  assert (Hl : (len <=? 0) = false) by (apply Z.leb_gt; lia).
  rewrite Hl. unfold bind. rewrite now_add, run_full_eq.
  destruct (whisper_full (wctx c) (make_params c) d len) as [r w1].
  cbn [fst snd].
  destruct (Z.eqb_spec r 0) as [->|Hr]; cbn [negb].
  - right. split; [reflexivity|].
    rewrite now_add, make_result_eq. reflexivity.
  - left. split; [exact Hr|reflexivity].
Qed.

(** The ways a stop ends: nothing buffered, a failed final pass, or a
    final pass whose segments are delivered and joined. *)
Lemma stop_cases c w :
  (stream_buffer c = [] /\
   whisper_bridge_stream_stop (Some c) w =
     ((empty, Some (clear_stream (set_streaming c false))), w)) \/
  (stream_buffer c <> [] /\ final_status c <> 0 /\
   whisper_bridge_stream_stop (Some c) w =
     ((empty, Some (clear_stream (final_ctx c))),
      add_ticks
        (add_events (add_ticks w 1)
           [EvFull (make_params c) (stream_buffer c) (buffer_size32 c)]) 1)) \/
  (stream_buffer c <> [] /\ final_status c = 0 /\
   whisper_bridge_stream_stop (Some c) w =
     ((result_of (final_ctx c) w,
       Some (set_last_result_text (clear_stream (final_ctx c))
               (text (result_of (final_ctx c) w)))),
      add_events
        (add_ticks
           (add_events (add_ticks w 1)
              [EvFull (make_params c) (stream_buffer c) (buffer_size32 c)])
           1)
        (callback_events (final_ctx c)))).
Proof.
  unfold whisper_bridge_stream_stop, final_status, final_ctx.
  change (stream_buffer (set_streaming c false)) with (stream_buffer c).
  destruct (stream_buffer c) as [|x buf] eqn:Hb; [now left|].
  right. unfold bind. rewrite now_add, run_full_eq.
  change (make_params (set_streaming c false)) with (make_params c).
  change (wctx (set_streaming c false)) with (wctx c).
  change (buffer_size32 (set_streaming c false)) with (buffer_size32 c).
  destruct (whisper_full (wctx c) (make_params c) (x :: buf) _) as [r w1].
  cbn [fst snd]. rewrite now_add.
  destruct (Z.eqb_spec r 0) as [->|Hr].
  - right. split; [discriminate|]. split; [reflexivity|].
    rewrite fire_callbacks_eq, make_result_eq. reflexivity.
  - left. split; [discriminate|]. split; [exact Hr|reflexivity].
Qed.

(** *** What every call keeps *)

Lemma make_params_sound c : config_inv c -> sound_params (make_params c).
Proof.
  intros [Hn Hl]. unfold sound_params, make_params.
  cbn [p_n_threads p_no_context p_translate p_no_timestamps p_print_special
       p_print_progress p_print_realtime p_print_timestamps
       p_greedy_best_of p_language p_detect_language].
  repeat (split; [assumption || reflexivity|]).
  destruct (String.eqb_spec (language c) "auto") as [Ha|Ha];
    [reflexivity|].
  split; [reflexivity|]. split; [exact Ha|].
  destruct Hl as [Hl|Hl]; [contradiction|exact Hl].
Qed.

Lemma single_segment_sound p :
  sound_params p -> sound_params (with_single_segment p).
Proof. intros H. exact H. Qed.

Lemma callback_events_sound c : Forall sound_event (callback_events c).
Proof.
  unfold callback_events, deliveries.
  destruct (stream_callback c); [|constructor].
  apply Forall_forall. intros e He. apply in_map_iff in He.
  destruct He as (t & <- & _). reflexivity.
Qed.

Lemma flush_events_sound c buf :
  config_inv c -> Forall sound_event (flush_events c buf).
Proof.
  intros Hc. unfold flush_events. constructor.
  - apply single_segment_sound, make_params_sound, Hc.
  - destruct (_ =? 0); [apply callback_events_sound|constructor].
Qed.

Ltac keep_inv :=
  repeat match goal with
         | H : whole_inv _ |- _ => destruct H as ([? ?] & [? ? ?] & ?)
         | H : idle_clean _ |- _ => unfold idle_clean in H
         end;
  unfold whole_inv, config_inv, idle_clean;
  (split; [split|split; [split|]]);
  cbn [n_threads language streaming stream_buffer stream_callback
       stream_user_data stream_step_samples wctx
       set_wctx set_language set_n_threads set_streaming set_stream_buffer
       set_stream_callback set_last_result_text clear_stream started
       flushed batch_ctx final_ctx];
  auto; try congruence; try discriminate.

Lemma run_call_sound k c w :
  whole_inv c ->
  exists c' w' evs,
    run_call k (Some c) w = (Some c', w') /\
    whole_inv c' /\
    w_trace w' = w_trace w ++ evs /\
    Forall sound_event evs.
Proof.
  intros Hinv. pose proof Hinv as (Hcfg & Hses & Hidle).
  destruct k as [lang|n|d n|cb ud|d n|]; cbn [run_call].
  - exists (match snd (whisper_bridge_set_language (Some c) lang) with
            | Some c' => c'
            | None => c
            end), w, [].
    unfold ret, whisper_bridge_set_language.
    destruct lang as [l|].
    2:{ cbn [snd]. split; [reflexivity|]. split; [exact Hinv|].
        split; [now rewrite app_nil_r|constructor]. }
    destruct (String.eqb_spec l "auto") as [->|Hl]; cbn [snd].
    + split; [reflexivity|]. split; [keep_inv|].
      split; [now rewrite app_nil_r|constructor].
    + destruct (Z.ltb_spec (whisper_lang_id l) 0); cbn [snd];
        (split; [reflexivity|]);
        (split; [try exact Hinv; keep_inv|]);
        (split; [now rewrite app_nil_r|constructor]).
  - exists (set_n_threads c (if 0 <? n then n else 4)), w, [].
    unfold ret. split; [reflexivity|].
    split; [keep_inv; destruct (Z.ltb_spec 0 n); lia|].
    split; [now rewrite app_nil_r|constructor].
  - destruct (transcribe_cases c d n w)
      as [[_ Heq]|(d' & -> & Hn & [[Hr Heq]|[Hr Heq]])];
      unfold bind; rewrite Heq; unfold ret; cbn [snd fst];
      do 3 eexists; (split; [reflexivity|]).
    + split; [exact Hinv|].
      split; [symmetry; apply app_nil_r|constructor].
    + split; [keep_inv|]. split; [reflexivity|].
      constructor; [apply make_params_sound, Hcfg|constructor].
    + split; [keep_inv|]. split; [reflexivity|].
      constructor; [apply make_params_sound, Hcfg|constructor].
  - unfold ret, whisper_bridge_stream_start.
    destruct cb as [cb|]; cbn [snd]; do 3 eexists;
      (split; [reflexivity|]).
    + split; [keep_inv|].
      split; [symmetry; apply app_nil_r|constructor].
    + split; [exact Hinv|].
      split; [symmetry; apply app_nil_r|constructor].
  - destruct (push_cases c d n w)
      as [[_ Heq]|(d' & -> & Hn & Hs & [Heq|(kept & _ & Heq)])];
      unfold bind; rewrite Heq; unfold ret; cbn [snd fst];
      do 3 eexists; (split; [reflexivity|]).
    + split; [exact Hinv|].
      split; [symmetry; apply app_nil_r|constructor].
    + split; [keep_inv|].
      split; [symmetry; apply app_nil_r|constructor].
    + split; [keep_inv|]. split; [reflexivity|].
      apply flush_events_sound, Hcfg.
  - destruct (stop_cases c w)
      as [[Hb Heq]|[(Hb & Hr & Heq)|(Hb & Hr & Heq)]];
      unfold bind; rewrite Heq; unfold ret; cbn [snd fst];
      do 3 eexists; (split; [reflexivity|]).
    + split; [keep_inv|].
      split; [symmetry; apply app_nil_r|constructor].
    + split; [keep_inv|]. split; [reflexivity|].
      constructor; [apply make_params_sound, Hcfg|constructor].
    + split; [keep_inv|].
      split; [cbn [w_trace add_events add_ticks];
              rewrite <- app_assoc; reflexivity|].
      constructor; [apply make_params_sound, Hcfg|].
      apply callback_events_sound.
Qed.

Lemma run_calls_sound ks c w :
  whole_inv c ->
  exists c' w' evs,
    run_calls ks (Some c) w = (Some c', w') /\
    whole_inv c' /\
    w_trace w' = w_trace w ++ evs /\
    Forall sound_event evs.
Proof.
  revert c w. induction ks as [|k ks IH]; intros c w Hinv.
  - exists c, w, []. split; [reflexivity|]. split; [exact Hinv|].
    split; [symmetry; apply app_nil_r|constructor].
  - destruct (run_call_sound k c w Hinv)
      as (c1 & w1 & evs1 & Heq1 & Hinv1 & Htr1 & Hev1).
    destruct (IH c1 w1 Hinv1) as (c2 & w2 & evs2 & Heq2 & Hinv2 & Htr2 & Hev2).
    exists c2, w2, (evs1 ++ evs2).
    cbn [run_calls]. unfold bind. rewrite Heq1.
    split; [exact Heq2|]. split; [exact Hinv2|].
    split; [now rewrite Htr2, Htr1, app_assoc|].
    apply Forall_app. now split.
Qed.

Lemma new_context_whole_inv w0 : whole_inv (new_context w0).
Proof.
  split; [split|split; [split|]]; cbn; auto; try discriminate; try lia.
  intros _. now split.
Qed.

Lemma reachable_whole_inv c : reachable c -> whole_inv c.
Proof.
  intros (path & c0 & ks & w0 & w & Hinit & Hrun).
  assert (H0 : whole_inv c0).
  { unfold whisper_bridge_init in Hinit.
    destruct path as [p|]; [|discriminate].
    destruct (whisper_init_from_file_with_params _ _); [|discriminate].
    injection Hinit as <-. apply new_context_whole_inv. }
  destruct (run_calls_sound ks c0 w0 H0) as (c' & w' & evs & Heq & Hinv & _).
  rewrite Heq in Hrun. now injection Hrun as <- _.
Qed.

(** *** Invariants of the reachable contexts *)

(** X1.  In every context that a sequence of calls reaches from init,
    the step is 32000 samples; while the context streams it has a
    callback; while it does not stream it holds no buffered audio, no
    callback and no user data. *)
Theorem X1_stream_state_invariant (c : whisper_bridge_context) :
  reachable c ->
  stream_step_samples c = 32000 /\
  (streaming c = true -> exists cb, stream_callback c = Some cb) /\
  (streaming c = false ->
   stream_buffer c = [] /\ stream_callback c = None /\
   stream_user_data c = None).
Proof.
  intros Hr. destruct (reachable_whole_inv c Hr) as (_ & [Hstep Hcb Hb] & Hi).
  split; [exact Hstep|]. split.
  - intros Hs. destruct (stream_callback c) as [cb|]; [now exists cb|].
    now destruct (Hcb Hs).
  - intros Hs. split; [now apply Hb|now apply Hi].
Qed.

(** X2.  In every reachable context the thread count is positive and
    the stored language is "auto" or a code that the engine's language
    table knows: set_threads replaces a non-positive count by 4 and
    set_language stores nothing the table rejects. *)
Theorem X2_configuration_invariant (c : whisper_bridge_context) :
  reachable c ->
  0 < n_threads c /\
  (language c = "auto" \/ 0 <= whisper_lang_id (language c)).
Proof.
  intros Hr. now destruct (reachable_whole_inv c Hr) as (Hc & _).
Qed.

(** X3.  Whatever calls follow on a reachable context, every inference
    pass they request runs with a positive thread count, without
    translation, without conditioning on previous text, without
    timestamps or printing, with a single greedy candidate, and either
    in detect-language mode with no language or, with detection off,
    in a language of the engine's table; and every callback they fire
    delivers a final segment ([is_partial] is 0). *)
Theorem X3_engine_requests_are_sound (c : whisper_bridge_context)
    (ks : list call) (w : world) :
  reachable c ->
  exists c' w' evs,
    run_calls ks (Some c) w = (Some c', w') /\
    w_trace w' = w_trace w ++ evs /\
    Forall sound_event evs.
Proof.
  intros Hr.
  destruct (run_calls_sound ks c w (reachable_whole_inv c Hr))
    as (c' & w' & evs & Heq & _ & Htr & Hev).
  now exists c', w', evs.
Qed.

(** *** The accumulator *)

(** X4.  In a session from init whose pushes hand over at most
    INT32_MAX - 32000 samples each, the accumulator holds fewer than
    32000 samples after every call: the flush policy bounds the memory
    of the stream. *)
Theorem X4_accumulator_stays_below_step (path : option string)
    (c0 : whisper_bridge_context) (ks : list call) (w0 : world) :
  whisper_bridge_init path = Some c0 ->
  Forall bounded_call ks ->
  exists c w,
    run_calls ks (Some c0) w0 = (Some c, w) /\
    Z.of_nat (List.length (stream_buffer c)) < 32000.
Proof.
  intros Hinit Hks.
  assert (H0 : bounded_inv c0).
  { unfold whisper_bridge_init in Hinit.
    destruct path as [p|]; [|discriminate].
    destruct (whisper_init_from_file_with_params _ _); [|discriminate].
    injection Hinit as <-. apply new_context_inv. }
  destruct (bounded_session_accumulator ks c0 w0 H0 Hks)
    as (c & w & Heq & _ & Hsz).
  now exists c, w.
Qed.

Lemma pushed_samples_none p : snd p <= 0 -> pushed_samples p = [].
Proof.
  intros H. unfold pushed_samples.
  replace (Z.to_nat (snd p)) with 0%nat by lia. reflexivity.
Qed.

(** X5.  While a session streams, the accumulator is always a suffix
    of the audio pushed into it: after any sequence of pushes, what was
    buffered before followed by the pushed chunks ends with the
    accumulator.  Pushes only append and flushes only drop from the
    front; no sample is reordered, altered or invented. *)
Theorem X5_accumulator_is_suffix_of_pushed_audio
    (c : whisper_bridge_context) (pushes : list (list sample * Z))
    (w : world) :
  streaming c = true ->
  exists c' w' dropped,
    run_calls (map push_call pushes) (Some c) w = (Some c', w') /\
    streaming c' = true /\
    stream_buffer c ++ List.concat (map pushed_samples pushes)
    = dropped ++ stream_buffer c'.
Proof.
  revert c w. induction pushes as [|p ps IH]; intros c w Hs.
  - exists c, w, []. split; [reflexivity|]. split; [exact Hs|].
    cbn. now rewrite app_nil_r.
  - cbn [map run_calls List.concat]. unfold bind, push_call at 1.
    cbn [run_call]. unfold bind, ret.
    destruct (push_cases c (Some (fst p)) (snd p) w)
      as [[Hwhy Heq]|(d & Hd & Hn & _ & [Heq|(kept & Hk & Heq)])];
      rewrite Heq; cbn [snd fst].
    + destruct Hwhy as [Hwhy|[Hwhy|Hwhy]]; [discriminate| |congruence].
      destruct (IH c w Hs) as (c' & w' & dropped & Hrun & Hs' & Hsuf).
      exists c', w', dropped. split; [exact Hrun|]. split; [exact Hs'|].
      now rewrite pushed_samples_none.
    + injection Hd as <-.
      destruct (IH (set_stream_buffer c (appended c (fst p) (snd p))) w Hs)
        as (c' & w' & dropped & Hrun & Hs' & Hsuf).
      exists c', w', dropped. split; [exact Hrun|]. split; [exact Hs'|].
      cbn [stream_buffer set_stream_buffer] in Hsuf. unfold appended in Hsuf.
      fold (pushed_samples p) in Hsuf. now rewrite app_assoc.
    + injection Hd as <-.
      destruct (IH (set_stream_buffer
                      (flushed c (appended c (fst p) (snd p))) kept)
                  (add_events w
                     (flush_events c (appended c (fst p) (snd p)))) Hs)
        as (c' & w' & dropped & Hrun & Hs' & Hsuf).
      cbn [stream_buffer set_stream_buffer] in Hsuf.
      assert (Hcut : exists cut, appended c (fst p) (snd p) = cut ++ kept).
      { destruct Hk as [->| ->]; [now exists []|].
        apply erase_front_suffix. }
      destruct Hcut as (cut & Hcut).
      exists c', w', (cut ++ dropped).
      split; [exact Hrun|]. split; [exact Hs'|].
      rewrite app_assoc. fold (pushed_samples p).
      change (stream_buffer c ++ pushed_samples p)
        with (appended c (fst p) (snd p)).
      now rewrite Hcut, <- !app_assoc, Hsuf.
Qed.

(** X6.  How a chunk is cut does not matter as long as its first part
    does not reach the step: on a reachable streaming context, pushing
    [a] and then [b] leaves the same context and the same world as
    pushing [a ++ b] at once, when the accumulator with [a] stays below
    32000 samples (and the length of [a ++ b] fits [audio_len]). *)
Theorem X6_chunking_is_irrelevant_below_step (c : whisper_bridge_context)
    (a b : list sample) (w : world) :
  reachable c ->
  streaming c = true ->
  Z.of_nat (List.length (stream_buffer c ++ a)) < 32000 ->
  Z.of_nat (List.length (a ++ b)) <= 2147483647 ->
  run_calls [whole a; whole b] (Some c) w =
  run_calls [whole (a ++ b)] (Some c) w.
Proof.
  intros Hr Hs Hlt _.
  pose proof (inv_step c (reachable_inv c Hr)) as Hstep.
  unfold stepThreshold in Hstep.
  destruct a as [|x a].
  { cbn [run_calls]. unfold bind, whole at 1. cbn [run_call]. unfold bind.
    rewrite push_invalid by (right; cbn; lia). reflexivity. }
  destruct b as [|y b].
  { rewrite app_nil_r. cbn [run_calls]. unfold bind, ret, whole.
    cbn [run_call]. unfold bind, ret.
    destruct (whisper_bridge_stream_push (Some c) (Some (x :: a)) _ w)
      as [[r o] w1]. cbn [snd].
    destruct o as [c1|].
    - rewrite push_invalid by (right; cbn; lia). reflexivity.
    - reflexivity. }
  cbn [run_calls]. unfold bind, ret, whole. cbn [run_call]. unfold bind, ret.
  rewrite push_append; cycle 1.
  { exact Hs. }
  { cbn [List.length]. lia. }
  { unfold appended. rewrite firstn_whole.
    rewrite cast_int32_small by lia. lia. }
  cbn [snd]. unfold appended. rewrite firstn_whole.
  unfold whisper_bridge_stream_push.
  assert (Hb : (Z.of_nat (List.length (y :: b)) <=? 0) = false)
    by (apply Z.leb_gt; cbn [List.length]; lia).
  assert (Hab : (Z.of_nat (List.length ((x :: a) ++ y :: b)) <=? 0) = false)
    by (apply Z.leb_gt; cbn [List.length app]; lia).
  rewrite Hb, Hab.
  cbn [streaming stream_buffer set_stream_buffer]. rewrite Hs. cbn [negb].
  rewrite !firstn_whole, <- app_assoc. reflexivity.
Qed.

(** *** Start and stop *)

(** X7.  A start without a callback fails and changes nothing.  A
    start with one always succeeds, also on a context that is already
    streaming: it empties the accumulator, so audio buffered before the
    restart is discarded without reaching the engine, and a stop right
    after it returns the empty result and leaves the world untouched.
    Language, thread count, engine state and last result text are
    those from before the start. *)
Theorem X7_start_restarts_and_discards (c : whisper_bridge_context)
    (cb : whisper_bridge_segment_callback) (ud : pointer) (w : world) :
  whisper_bridge_stream_start (Some c) None ud = (-1, Some c) /\
  whisper_bridge_stream_start (Some c) (Some cb) ud
    = (0, Some (started c cb ud)) /\
  streaming (started c cb ud) = true /\
  stream_buffer (started c cb ud) = [] /\
  stream_callback (started c cb ud) = Some cb /\
  stream_user_data (started c cb ud) = ud /\
  language (started c cb ud) = language c /\
  n_threads (started c cb ud) = n_threads c /\
  wctx (started c cb ud) = wctx c /\
  last_result_text (started c cb ud) = last_result_text c /\
  whisper_bridge_stream_stop (Some (started c cb ud)) w =
    ((empty, Some (clear_stream (set_streaming c false))), w).
Proof. repeat split. Qed.

(** X8.  Stop is idempotent: whatever a first stop did, a second stop
    right after it returns the empty result, runs no inference, fires
    no callback and leaves the context as the first stop left it. *)
Theorem X8_stop_twice (c : whisper_bridge_context) (w : world) :
  exists res c1 w1,
    whisper_bridge_stream_stop (Some c) w = ((res, Some c1), w1) /\
    whisper_bridge_stream_stop (Some c1) w1 = ((empty, Some c1), w1).
Proof.
  destruct (stop_cases c w)
    as [[Hb Heq]|[(Hb & Hr & Heq)|(Hb & Hr & Heq)]];
    do 3 eexists; (split; [exact Heq|]); reflexivity.
Qed.

(** X9.  A stop with audio buffered whose final pass succeeds runs
    exactly one pass, over the whole accumulator and not in
    single-segment mode, then invokes the callback registered at the
    start once for every segment whose text is not null, in segment
    order, with [is_partial] 0 and the registered user data.  The
    result counts all the segments of the pass, those without text
    included, reports the engine's language id, probability 0.0 and,
    as duration, the whole milliseconds (rounded toward zero) in the
    difference of the two time points read around the pass; the context
    is left idle with the accumulator and the callback cleared. *)
Theorem X9_stop_delivers_the_final_pass (c : whisper_bridge_context)
    (w : world) (cb : whisper_bridge_segment_callback) :
  stream_buffer c <> [] ->
  stream_callback c = Some cb ->
  final_status c = 0 ->
  exists res c' w',
    whisper_bridge_stream_stop (Some c) w = ((res, Some c'), w') /\
    w_trace w' =
      w_trace w ++
      EvFull (make_params c) (stream_buffer c) (buffer_size32 c)
      :: map (fun t => EvCallback cb t 0 (stream_user_data c))
           (produced_texts (wctx c') (whisper_full_n_segments (wctx c'))) /\
    p_single_segment (make_params c) = false /\
    w_ticks w' = S (S (w_ticks w)) /\
    segments res = whisper_full_n_segments (wctx c') /\
    lang_id res = whisper_full_lang_id (wctx c') /\
    lang_prob res = f32_zero /\
    duration_ms res =
      Z.quot (w_clock w (S (w_ticks w)) - w_clock w (w_ticks w)) 1000000 /\
    Z.of_nat
      (List.length
         (produced_texts (wctx c') (whisper_full_n_segments (wctx c'))))
      <= Z.max 0 (segments res) /\
    streaming c' = false /\ stream_buffer c' = [] /\
    stream_callback c' = None /\ stream_user_data c' = None.
Proof.
  intros Hb Hcb Hok.
  destruct (stop_cases c w)
    as [[Hb' _]|[(_ & Hr & _)|(_ & _ & Heq)]]; try contradiction.
  do 3 eexists. split; [exact Heq|].
  split.
  { cbn [w_trace add_events add_ticks]. rewrite <- app_assoc.
    unfold callback_events, final_ctx.
    cbn [stream_callback stream_user_data set_wctx set_streaming wctx
         set_last_result_text clear_stream set_stream_callback
         set_stream_buffer].
    rewrite Hcb. reflexivity. }
  repeat (split; [reflexivity|]).
  split; [|repeat split].
  cbn [segments result_of wctx set_last_result_text clear_stream
       set_stream_callback set_stream_buffer].
  unfold produced_texts, indices.
  set (n := whisper_full_n_segments _).
  assert (Hle : forall l : list Z,
             (List.length
                (flat_map
                   (fun i =>
                      match whisper_full_get_segment_text
                              (wctx (final_ctx c)) i with
                      | Some t => [t]
                      | None => []
                      end) l) <= List.length l)%nat).
  { induction l as [|i l IH]; [cbn; lia|].
    cbn [flat_map]. rewrite length_app. cbn [List.length].
    destruct (whisper_full_get_segment_text _ i); cbn [List.length]; lia. }
  specialize (Hle (map Z.of_nat (seq 0 (Z.to_nat n)))).
  rewrite length_map, length_seq in Hle. lia.
Qed.

(** *** The batch path *)

(** X10.  A batch transcription with a null buffer or a length that is
    not positive returns the empty result and touches nothing: no pass,
    no clock reading, the context unchanged.  When the pass itself
    fails, the call returns the empty result after exactly one pass,
    which was not in single-segment mode, and one clock reading; the
    text of the previous result stays in the buffer. *)
Theorem X10_failed_transcription_keeps_the_last_text
    (c : whisper_bridge_context) (data : option (list sample)) (len : Z)
    (w : world) :
  (data = None \/ len <= 0 ->
   whisper_bridge_transcribe (Some c) data len w = ((empty, Some c), w)) /\
  (forall d,
      data = Some d -> 0 < len -> batch_status c d len <> 0 ->
      whisper_bridge_transcribe (Some c) data len w =
        ((empty, Some (batch_ctx c d len)),
         add_events (add_ticks w 1) [EvFull (make_params c) d len]) /\
      p_single_segment (make_params c) = false /\
      last_result_text (batch_ctx c d len) = last_result_text c).
Proof.
  split.
  - intros [-> | Hlen]; [reflexivity|].
    unfold whisper_bridge_transcribe. destruct data; [|reflexivity].
    apply Z.leb_le in Hlen. now rewrite Hlen.
  - intros d -> Hlen Hfail.
    destruct (transcribe_cases c (Some d) len w)
      as [[[Hno|Hno] _]|(d' & Hd & _ & [[_ Heq]|[Hok _]])].
    + discriminate.
    + lia.
    + injection Hd as <-. now rewrite Heq.
    + injection Hd as <-. contradiction.
Qed.

(** X11.  A batch transcription never interferes with a stream: however
    it ends, it fires no callback, and the streaming flag, the
    accumulator, the callback, the user data, the language and the
    thread count are what they were; its result always reports the
    language probability 0.0. *)
Theorem X11_transcription_leaves_the_stream_alone
    (c : whisper_bridge_context) (data : option (list sample)) (len : Z)
    (w : world) :
  exists res c' w' evs,
    whisper_bridge_transcribe (Some c) data len w = ((res, Some c'), w') /\
    w_trace w' = w_trace w ++ evs /\
    filter is_callback evs = [] /\
    (List.length evs <= 1)%nat /\
    streaming c' = streaming c /\
    stream_buffer c' = stream_buffer c /\
    stream_callback c' = stream_callback c /\
    stream_user_data c' = stream_user_data c /\
    language c' = language c /\
    n_threads c' = n_threads c /\
    lang_prob res = f32_zero.
Proof.
  destruct (transcribe_cases c data len w)
    as [[_ Heq]|(d & -> & _ & [[_ Heq]|[_ Heq]])]; rewrite Heq.
  - exists empty, c, w, []. split; [reflexivity|].
    split; [symmetry; apply app_nil_r|]. repeat split. cbn. lia.
  - do 3 eexists. exists [EvFull (make_params c) d len].
    split; [reflexivity|]. repeat split. cbn. lia.
  - do 3 eexists. exists [EvFull (make_params c) d len].
    split; [reflexivity|]. repeat split. cbn. lia.
Qed.

(** *** The last result text *)

(** X12.  The text a result points to stays intact across set_language,
    set_threads, start and push, whatever they do; a transcribe or a
    stop either leaves it intact too (when it returns the empty result)
    or replaces it by the joined text of the pass it ran. *)
Theorem X12_result_text_lifetime (k : call) (c : whisper_bridge_context)
    (w : world) :
  exists c' w',
    run_call k (Some c) w = (Some c', w') /\
    match k with
    | Transcribe _ _ | StreamStop =>
        last_result_text c' = last_result_text c \/
        last_result_text c' =
          joined (produced_texts (wctx c')
                    (whisper_full_n_segments (wctx c')))
    | _ => last_result_text c' = last_result_text c
    end.
Proof.
  destruct k as [lang|n|d n|cb ud|d n|]; cbn [run_call].
  - unfold ret, whisper_bridge_set_language.
    destruct lang as [l|]; [|now exists c, w].
    destruct (String.eqb l "auto");
      [|destruct (whisper_lang_id l <? 0)];
      do 2 eexists; (split; [reflexivity|]); reflexivity.
  - unfold ret. do 2 eexists. split; reflexivity.
  - destruct (transcribe_cases c d n w)
      as [[_ Heq]|(d' & -> & _ & [[_ Heq]|[_ Heq]])];
      unfold bind; rewrite Heq; unfold ret; cbn [snd fst];
      do 2 eexists; (split; [reflexivity|]);
      [now left|now left|now right].
  - unfold ret, whisper_bridge_stream_start.
    destruct cb as [cb|]; do 2 eexists; split; reflexivity.
  - destruct (push_cases c d n w)
      as [[_ Heq]|(d' & -> & _ & _ & [Heq|(kept & _ & Heq)])];
      unfold bind; rewrite Heq; unfold ret; cbn [snd fst];
      do 2 eexists; split; reflexivity.
  - destruct (stop_cases c w)
      as [[_ Heq]|[(_ & _ & Heq)|(_ & _ & Heq)]];
      unfold bind; rewrite Heq; unfold ret; cbn [snd fst];
      do 2 eexists; (split; [reflexivity|]);
      [now left|now left|now right].
Qed.

(** *** Configuration *)

(** X13.  The configuration takes effect on the next pass.  After
    set_threads with [n] and set_language with a code [l] of the
    engine's table, a batch transcription requests exactly one pass,
    with [n] threads ([4] when [n] is not positive), in the language
    [l] with detection off; after set_language with "auto" it requests
    detection and names no language. *)
Theorem X13_configuration_reaches_the_engine (c : whisper_bridge_context)
    (n : Z) (l : string) (d : list sample) (len : Z) (w : world) :
  0 < len ->
  l = "auto" \/ 0 <= whisper_lang_id l ->
  exists c' w' p,
    run_calls [SetThreads n; SetLanguage (Some l); Transcribe (Some d) len]
      (Some c) w = (Some c', w') /\
    w_trace w' = w_trace w ++ [EvFull p d len] /\
    p_n_threads p = clamp_threads n /\
    p_single_segment p = false /\
    (l = "auto" -> p_language p = None /\ p_detect_language p = true) /\
    (l <> "auto" -> p_language p = Some l /\ p_detect_language p = false).
Proof.
  intros Hlen Hl.
  cbn [run_calls run_call]. unfold bind, ret.
  cbn [whisper_bridge_set_threads].
  set (c1 := set_n_threads c (if 0 <? n then n else 4)).
  assert (Hset : snd (whisper_bridge_set_language (Some c1) (Some l))
                 = Some (set_language c1 l)).
  { unfold whisper_bridge_set_language.
    destruct (String.eqb_spec l "auto") as [->|Hne]; [reflexivity|].
    destruct Hl as [Hl|Hl]; [contradiction|].
    destruct (Z.ltb_spec (whisper_lang_id l) 0); [lia|reflexivity]. }
  rewrite Hset.
  destruct (transcribe_cases (set_language c1 l) (Some d) len w)
    as [[[Hno|Hno] _]|(d' & Hd & _ & [[_ Heq]|[_ Heq]])].
  - discriminate.
  - lia.
  - injection Hd as <-. rewrite Heq. cbn [snd fst].
    do 2 eexists. exists (make_params (set_language c1 l)).
    split; [reflexivity|]. split; [reflexivity|].
    split; [reflexivity|]. split; [reflexivity|].
    unfold make_params. cbn [p_language p_detect_language language
                             set_language].
    split; [intros ->; now split|].
    intros Hne. apply String.eqb_neq in Hne. rewrite Hne. now split.
  - injection Hd as <-. rewrite Heq. cbn [snd fst].
    do 2 eexists. exists (make_params (set_language c1 l)).
    split; [reflexivity|]. split; [reflexivity|].
    split; [reflexivity|]. split; [reflexivity|].
    unfold make_params. cbn [p_language p_detect_language language
                             set_language].
    split; [intros ->; now split|].
    intros Hne. apply String.eqb_neq in Hne. rewrite Hne. now split.
Qed.

(** *** A null context *)

(** X14.  No call does anything on a null context: set_language, start
    and push report -1, transcribe and stop return the empty result,
    set_threads returns, and a whole sequence of calls leaves the world
    as it was. *)
Theorem X14_null_context_is_inert (ks : list call) (w : world)
    (lang : option string) (cb : option whisper_bridge_segment_callback)
    (ud : pointer) (data : option (list sample)) (len n : Z) :
  whisper_bridge_set_language None lang = (-1, None) /\
  whisper_bridge_set_threads None n = None /\
  whisper_bridge_transcribe None data len w = ((empty, None), w) /\
  whisper_bridge_stream_start None cb ud = (-1, None) /\
  whisper_bridge_stream_push None data len w = ((-1, None), w) /\
  whisper_bridge_stream_stop None w = ((empty, None), w) /\
  run_calls ks None w = (None, w).
Proof.
  repeat (split; [reflexivity|]).
  induction ks as [|k ks IH]; [reflexivity|].
  cbn [run_calls]. unfold bind.
  assert (Hk : run_call k None w = (None, w)) by (destruct k; reflexivity).
  now rewrite Hk.
Qed.

(** *** No audio is lost *)

Lemma consumed_callbacks first c :
  consumed first (callback_events c) = [].
Proof.
  unfold callback_events, deliveries.
  destruct (stream_callback c); [|reflexivity].
  induction (produced_texts _ _) as [|t ts IH]; [reflexivity|exact IH].
Qed.

Lemma consumed_app first evs1 evs2 :
  consumed first (evs1 ++ evs2) =
  consumed first evs1 ++ consumed (first && forallb is_callback evs1) evs2.
Proof.
  revert first. induction evs1 as [|e evs1 IH]; intros first.
  - cbn. now rewrite andb_true_r.
  - destruct e as [p smp n|cb t ip ud]; cbn [app consumed forallb is_callback].
    + rewrite IH, andb_false_r. cbn [andb]. now rewrite app_assoc.
    + rewrite IH. now cbn [andb].
Qed.

Lemma forallb_callback_events c : forallb is_callback (callback_events c) = true.
Proof.
  unfold callback_events, deliveries.
  destruct (stream_callback c); [|reflexivity].
  induction (produced_texts _ _) as [|t ts IH]; [reflexivity|exact IH].
Qed.

Lemma pushes_consume c first pushes w :
  streaming c = true ->
  stream_step_samples c = stepThreshold ->
  Z.of_nat (List.length (stream_buffer c)) < stepThreshold ->
  (first = false -> overlapRetention <= Z.of_nat (List.length (stream_buffer c))) ->
  Forall bounded_push pushes ->
  exists c' evs,
    run_calls (map push_call pushes) (Some c) w
      = (Some c', add_events w evs) /\
    pending first (stream_buffer c)
      ++ List.concat (map pushed_samples pushes)
    = consumed first evs
      ++ pending (first && forallb is_callback evs) (stream_buffer c').
Proof.
  intros Hs Hstep Hsz Hov Hps. revert c first w Hs Hstep Hsz Hov.
  induction Hps as [|p ps Hp _ IH]; intros c first w Hs Hstep Hsz Hov.
  - exists c, []. split; [cbn; unfold ret; now rewrite add_events_nil|].
    cbn [map List.concat consumed forallb]. now rewrite andb_true_r, app_nil_r.
  - unfold bounded_push, stepThreshold, overlapRetention in *.
    cbn [map run_calls List.concat]. unfold bind, push_call at 1.
    cbn [run_call]. unfold bind, ret.
    destruct (Z_le_gt_dec (snd p) 0) as [Hle|Hgt].
    { rewrite push_invalid by now right. cbn [snd].
      destruct (IH c first w Hs Hstep Hsz Hov) as (c' & evs & Hrun & Heq).
      exists c', evs. split; [exact Hrun|].
      now rewrite pushed_samples_none by lia. }
    assert (Hlen : Z.of_nat (List.length (appended c (fst p) (snd p)))
                   <= Z.of_nat (List.length (stream_buffer c)) + snd p).
    { unfold appended. rewrite length_app, length_firstn. lia. }
    assert (Hge : Z.of_nat (List.length (stream_buffer c))
                  <= Z.of_nat (List.length (appended c (fst p) (snd p)))).
    { unfold appended. rewrite length_app. lia. }
    assert (Hcast : cast_int32
                      (Z.of_nat (List.length (appended c (fst p) (snd p))))
                    = Z.of_nat (List.length (appended c (fst p) (snd p))))
      by (apply cast_int32_small; lia).
    assert (Hpend : pending first (stream_buffer c) ++ pushed_samples p
                    = pending first (appended c (fst p) (snd p))).
    { unfold pending, appended. fold (pushed_samples p).
      destruct first; [reflexivity|].
      rewrite skipn_app.
      replace (Z.to_nat overlapRetention - List.length (stream_buffer c))%nat
        with 0%nat by (specialize (Hov eq_refl); unfold overlapRetention; lia).
      reflexivity. }
    rewrite app_assoc, Hpend.
    destruct (Z_lt_ge_dec
                (Z.of_nat (List.length (appended c (fst p) (snd p)))) 32000)
      as [Hlt|Hflush].
    + rewrite push_append by (assumption || lia). cbn [snd].
      destruct (IH (set_stream_buffer c (appended c (fst p) (snd p)))
                  first w Hs Hstep)
        as (c' & evs & Hrun & Heq).
      { cbn [stream_buffer set_stream_buffer]. exact Hlt. }
      { cbn [stream_buffer set_stream_buffer]. intros Hf.
        specialize (Hov Hf). lia. }
      exists c', evs. split; [exact Hrun|exact Heq].
    + rewrite push_flush
        by (unfold overlapRetention; assumption || lia).
      cbn [snd].
      set (acc := appended c (fst p) (snd p)) in *.
      assert (Hkeep : Z.of_nat (List.length (erase_front overlapRetention acc))
                      = 8000)
        by (apply erase_front_length; unfold overlapRetention; lia).
      destruct (IH (set_stream_buffer (flushed c acc)
                      (erase_front overlapRetention acc))
                  false (add_events w (flush_events c acc)))
        as (c' & evs & Hrun & Heq).
      { exact Hs. }
      { exact Hstep. }
      { cbn [stream_buffer set_stream_buffer]. rewrite Hkeep. lia. }
      { cbn [stream_buffer set_stream_buffer]. intros _. rewrite Hkeep. lia. }
      cbn [stream_buffer set_stream_buffer] in Heq.
      exists c', (flush_events c acc ++ evs).
      split; [now rewrite <- add_events_app|].
      rewrite consumed_app.
      assert (Hnone : pending false (erase_front overlapRetention acc) = []).
      { unfold pending. apply skipn_all2. unfold overlapRetention in *. lia. }
      rewrite Hnone in Heq. cbn [app] in Heq.
      unfold flush_events at 1 2. cbn [consumed forallb is_callback].
      rewrite andb_false_r. cbn [andb].
      fold acc. rewrite Hcast, firstn_whole.
      assert (Hcb : forall b, consumed b
                      (if fst (whisper_full (wctx c)
                                 (with_single_segment (make_params c)) acc
                                 (Z.of_nat (List.length acc))) =? 0
                       then callback_events (flushed c acc) else []) = []).
      { intros b. destruct (_ =? 0);
          [apply consumed_callbacks|reflexivity]. }
      rewrite Hcb, app_nil_r, <- app_assoc.
      assert (Hflag : forallb is_callback (flush_events c acc ++ evs) = false)
        by reflexivity.
      rewrite Hflag, andb_false_r. cbn [andb app] in Heq. rewrite <- Heq.
      unfold pending. now destruct first.
Qed.

(** X17.  No audio is lost and none is consumed twice beyond the
    overlap.  Start a stream on a reachable context and push chunks of
    at most INT32_MAX - 32000 samples each: the audio pushed so far is
    exactly what the passes have consumed (the first pass its whole
    input, every later pass its input without the 8000 samples it
    repeats from the pass before) followed by the part of the
    accumulator that is still to be consumed: all of it before the
    first pass, all but its first 8000 samples afterwards. *)
Theorem X17_stream_consumes_every_sample_once
    (c0 : whisper_bridge_context) (cb : whisper_bridge_segment_callback)
    (ud : pointer) (pushes : list (list sample * Z)) (w : world) :
  reachable c0 ->
  Forall bounded_push pushes ->
  exists c' evs,
    run_calls (StreamStart (Some cb) ud :: map push_call pushes)
      (Some c0) w = (Some c', add_events w evs) /\
    List.concat (map pushed_samples pushes)
    = consumed true evs
      ++ pending (forallb is_callback evs) (stream_buffer c').
Proof.
  intros Hr Hps.
  pose proof (inv_step c0 (reachable_inv c0 Hr)) as Hstep.
  destruct (pushes_consume (started c0 cb ud) true pushes w)
    as (c' & evs & Hrun & Heq); try assumption; try reflexivity.
  { discriminate. }
  exists c', evs. split; [exact Hrun|exact Heq].
Qed.

End SessionProperties.

(** ** The converted block *)

(** X15.  The conversion rewrites exactly the first [n] elements of
    [dst], each with the converted sample of the same index, and leaves
    every element from index [n] on, and the length of [dst], as they
    were; with a null [src], a null [dst] or an [n] that is not
    positive it writes nothing. *)
Theorem X15_pcm16_writes_the_block_only (src : option (list Z))
    (dst : option (list float)) (n : Z) :
  (src = None \/ dst = None \/ n <= 0 ->
   whisper_bridge_pcm16_to_f32 src dst n = dst) /\
  (forall s d,
      src = Some s -> dst = Some d ->
      0 < n ->
      n <= Z.of_nat (List.length s) ->
      n <= Z.of_nat (List.length d) ->
      whisper_bridge_pcm16_to_f32 src dst n =
        Some (map pcm16_sample (firstn (Z.to_nat n) s)
              ++ skipn (Z.to_nat n) d)).
Proof.
  split.
  - intros [-> | [-> | Hn]]; [reflexivity|now destruct src|].
    unfold whisper_bridge_pcm16_to_f32.
    destruct src; [|reflexivity]. destruct dst; [|reflexivity].
    apply Z.leb_le in Hn. now rewrite Hn.
  - intros s d -> -> Hn Hs Hd.
    unfold whisper_bridge_pcm16_to_f32.
    apply Z.leb_gt in Hn as Hn'. rewrite Hn'. f_equal.
    fold (pcm16_loop s (indices n) d).
    assert (Hnm : n = Z.of_nat (Z.to_nat n)) by lia.
    set (m := Z.to_nat n) in *. clearbody m. subst n.
    destruct (pcm16_loop_spec s d S754_nan m) as [Hlen Hnth]; [lia|].
    apply (nth_ext _ _ S754_nan S754_nan).
    + transitivity (List.length d); [exact Hlen|].
      rewrite length_app, length_map, length_firstn, length_skipn.
      lia.
    + intros i _. etransitivity; [apply Hnth|].
      destruct (Nat.ltb_spec i m) as [Hi|Hi].
      * rewrite app_nth1 by (rewrite length_map, length_firstn; lia).
        rewrite (nth_indep _ S754_nan (pcm16_sample 0))
          by (rewrite length_map, length_firstn; lia).
        rewrite map_nth, nth_firstn.
        now rewrite (proj2 (Nat.ltb_lt i m)) by lia.
      * rewrite app_nth2 by (rewrite length_map, length_firstn; lia).
        rewrite length_map, length_firstn, nth_skipn.
        f_equal. lia.
Qed.

Lemma pcm16_exact_inj a b : (pcm16_exact a == pcm16_exact b)%Q -> a = b.
Proof.
  unfold pcm16_exact, Qeq, Qdiv, Qmult, Qinv, inject_Z. cbn. lia.
Qed.

Lemma pcm16_exact_range v :
  is_int16 v -> (-1 <= pcm16_exact v)%Q /\ (pcm16_exact v < 1)%Q.
Proof.
  unfold is_int16, INT16_MIN, INT16_MAX, pcm16_exact.
  unfold Qle, Qlt, Qdiv, Qmult, Qinv, inject_Z. cbn. lia.
Qed.

(** X16.  Every int16 sample converts to a finite float in the range
    [-1, 1), and the conversion loses nothing: two int16 samples that
    convert to the same float are the same sample. *)
Theorem X16_pcm16_range_and_lossless (a b : Z) :
  is_int16 a -> is_int16 b ->
  (exists q,
      float_value (pcm16_sample a) = Some q /\
      (-1 <= q)%Q /\ (q < 1)%Q) /\
  (pcm16_sample a = pcm16_sample b -> a = b).
Proof.
  intros Ha Hb.
  pose proof (pcm16_sample_exact a Ha) as Ea.
  pose proof (pcm16_sample_exact b Hb) as Eb.
  unfold float_is in Ea, Eb. split.
  - destruct (float_value (pcm16_sample a)) as [q|]; [|contradiction].
    exists q. split; [reflexivity|].
    destruct (pcm16_exact_range a Ha) as [Hlo Hhi].
    rewrite Ea. now split.
  - intros Heq. rewrite Heq in Ea.
    destruct (float_value (pcm16_sample b)) as [q|]; [|contradiction].
    apply pcm16_exact_inj. now rewrite <- Ea, <- Eb.
Qed.

(** ** Concrete runs of the session-wide properties *)

(** A run of X1: the context of a started session with one sample. *)
Lemma X1_stream_state_invariant_witness :
  stream_step_samples (live [] (silence 1)) = 32000 /\
  (streaming (live [] (silence 1)) = true ->
   exists cb, stream_callback (live [] (silence 1)) = Some cb) /\
  (streaming (live [] (silence 1)) = false ->
   stream_buffer (live [] (silence 1)) = [] /\
   stream_callback (live [] (silence 1)) = None /\
   stream_user_data (live [] (silence 1)) = None).
Proof.
  apply (X1_stream_state_invariant (E := eng [])).
  apply live_reachable. vm_compute. split; reflexivity.
Defined.

(** A run of X2: the same context. *)
Lemma X2_configuration_invariant_witness :
  0 < n_threads (live [] (silence 1)) /\
  (language (live [] (silence 1)) = "auto" \/
   0 <= whisper_lang_id (Engine := eng []) (language (live [] (silence 1)))).
Proof.
  apply (X2_configuration_invariant (E := eng [])).
  apply live_reachable. vm_compute. split; reflexivity.
Defined.

(** A run of X3: a language change and a batch transcription. *)
Lemma X3_engine_requests_are_sound_witness :
  exists c' w' evs,
    run_calls (E := eng script_ab)
      [SetLanguage (Some "es"); Transcribe (Some (silence 1)) 1]
      (Some (fresh script_ab)) world0 = (Some c', w') /\
    w_trace w' = w_trace world0 ++ evs /\
    Forall (sound_event (E := eng script_ab)) evs.
Proof.
  apply (X3_engine_requests_are_sound (E := eng script_ab)).
  apply fresh_reachable.
Defined.

(** A run of X4: a start and a push of three samples. *)
Lemma X4_accumulator_stays_below_step_witness :
  exists c w,
    run_calls (E := eng [])
      [StreamStart (Some 7) None; StreamPush (Some (silence 3)) 3]
      (Some (fresh [])) world0 = (Some c, w) /\
    Z.of_nat (List.length (stream_buffer c)) < 32000.
Proof.
  apply (X4_accumulator_stays_below_step (E := eng [])
           (Some "ggml-base.bin")).
  - reflexivity.
  - repeat constructor. cbn. unfold stepThreshold. lia.
Defined.

(** A run of X5: two samples buffered, three pushed. *)
Lemma X5_accumulator_is_suffix_of_pushed_audio_witness :
  exists c' w' dropped,
    run_calls (E := eng []) (map push_call [(silence 3, 3)])
      (Some (live [] (silence 2))) world0 = (Some c', w') /\
    streaming c' = true /\
    stream_buffer (live [] (silence 2))
      ++ List.concat (map pushed_samples [(silence 3, 3)])
    = dropped ++ stream_buffer c'.
Proof.
  apply (X5_accumulator_is_suffix_of_pushed_audio (E := eng [])).
  reflexivity.
Defined.

(** A run of X6: a chunk of five samples cut after the second. *)
Lemma X6_chunking_is_irrelevant_below_step_witness :
  run_calls (E := eng []) [whole (silence 2); whole (silence 3)]
    (Some (live [] (silence 1))) world0 =
  run_calls (E := eng []) [whole (silence 2 ++ silence 3)]
    (Some (live [] (silence 1))) world0.
Proof.
  apply (X6_chunking_is_irrelevant_below_step (E := eng [])).
  - apply live_reachable. vm_compute. split; reflexivity.
  - reflexivity.
  - vm_compute. reflexivity.
  - vm_compute. discriminate.
Defined.

(** A run of X9: one sample buffered, a pass with the texts a, null, b. *)
Lemma X9_stop_delivers_the_final_pass_witness :
  exists res c' w',
    whisper_bridge_stream_stop (E := eng script_ab)
      (Some (live script_ab (silence 1))) world0 = ((res, Some c'), w') /\
    w_trace w' =
      w_trace world0 ++
      EvFull (make_params (live script_ab (silence 1)))
        (stream_buffer (live script_ab (silence 1)))
        (buffer_size32 (live script_ab (silence 1)))
      :: map (fun t =>
                EvCallback 7 t 0
                  (stream_user_data (live script_ab (silence 1))))
           (produced_texts (wctx c') (whisper_full_n_segments (wctx c'))) /\
    p_single_segment (make_params (live script_ab (silence 1))) = false /\
    w_ticks w' = S (S (w_ticks world0)) /\
    segments res = whisper_full_n_segments (wctx c') /\
    lang_id res = whisper_full_lang_id (wctx c') /\
    lang_prob res = f32_zero /\
    duration_ms res =
      Z.quot
        (w_clock world0 (S (w_ticks world0)) - w_clock world0 (w_ticks world0))
        1000000 /\
    Z.of_nat
      (List.length
         (produced_texts (wctx c') (whisper_full_n_segments (wctx c'))))
      <= Z.max 0 (segments res) /\
    streaming c' = false /\ stream_buffer c' = [] /\
    stream_callback c' = None /\ stream_user_data c' = None.
Proof.
  apply (X9_stop_delivers_the_final_pass (E := eng script_ab)).
  - cbn. discriminate.
  - reflexivity.
  - reflexivity.
Defined.

(** Runs of X10: a null buffer, and a pass that fails. *)
Lemma X10_failed_transcription_keeps_the_last_text_witness :
  whisper_bridge_transcribe (E := eng []) (Some (fresh [])) None 1 world0
  = ((empty, Some (fresh [])), world0) /\
  (whisper_bridge_transcribe (E := eng [(1, [])]) (Some (fresh [(1, [])]))
     (Some (silence 1)) 1 world0 =
     ((empty, Some (batch_ctx (fresh [(1, [])]) (silence 1) 1)),
      add_events (add_ticks world0 1)
        [EvFull (make_params (fresh [(1, [])])) (silence 1) 1]) /\
   p_single_segment (make_params (fresh [(1, [])])) = false /\
   last_result_text (batch_ctx (fresh [(1, [])]) (silence 1) 1)
   = last_result_text (fresh [(1, [])])).
Proof.
  split.
  - apply (proj1 (X10_failed_transcription_keeps_the_last_text
                    (E := eng []) (fresh []) None 1 world0)).
    left. reflexivity.
  - apply (proj2 (X10_failed_transcription_keeps_the_last_text
                    (E := eng [(1, [])]) (fresh [(1, [])])
                    (Some (silence 1)) 1 world0)).
    + reflexivity.
    + reflexivity.
    + cbn. discriminate.
Defined.

(** A run of X13: no thread count, the language es. *)
Lemma X13_configuration_reaches_the_engine_witness :
  exists c' w' p,
    run_calls (E := eng script_ab)
      [SetThreads 0; SetLanguage (Some "es");
       Transcribe (Some (silence 1)) 1]
      (Some (fresh script_ab)) world0 = (Some c', w') /\
    w_trace w' = w_trace world0 ++ [EvFull p (silence 1) 1] /\
    p_n_threads p = clamp_threads 0 /\
    p_single_segment p = false /\
    ("es" = "auto" -> p_language p = None /\ p_detect_language p = true) /\
    ("es" <> "auto" ->
     p_language p = Some "es" /\ p_detect_language p = false).
Proof.
  apply (X13_configuration_reaches_the_engine (E := eng script_ab)).
  - reflexivity.
  - right. cbn. discriminate.
Defined.

(** Runs of X15: a null source, and a block of two in a buffer of three. *)
Lemma X15_pcm16_writes_the_block_only_witness :
  whisper_bridge_pcm16_to_f32 None (Some [S754_nan]) 1 = Some [S754_nan] /\
  whisper_bridge_pcm16_to_f32 (Some [16384; -16384])
    (Some [S754_nan; S754_nan; S754_nan]) 2 =
  Some (map pcm16_sample (firstn (Z.to_nat 2) [16384; -16384])
        ++ skipn (Z.to_nat 2) [S754_nan; S754_nan; S754_nan]).
Proof.
  split.
  - apply (proj1 (X15_pcm16_writes_the_block_only None (Some [S754_nan]) 1)).
    left. reflexivity.
  - apply (proj2 (X15_pcm16_writes_the_block_only (Some [16384; -16384])
                    (Some [S754_nan; S754_nan; S754_nan]) 2)).
    + reflexivity.
    + reflexivity.
    + lia.
    + cbn. lia.
    + cbn. lia.
Defined.

(** A run of X16: the two ends of the range. *)
Lemma X16_pcm16_range_and_lossless_witness :
  (exists q,
      float_value (pcm16_sample (-32768)) = Some q /\
      (-1 <= q)%Q /\ (q < 1)%Q) /\
  (pcm16_sample (-32768) = pcm16_sample 32767 -> -32768 = 32767).
Proof.
  apply X16_pcm16_range_and_lossless;
    unfold is_int16, INT16_MIN, INT16_MAX; lia.
Defined.

(** A run of X17: a start and chunks of three and four samples. *)
Lemma X17_stream_consumes_every_sample_once_witness :
  exists c' evs,
    run_calls (E := eng [])
      (StreamStart (Some 7) (Some 42)
       :: map push_call [(silence 3, 3); (silence 5, 4)])
      (Some (fresh [])) world0 = (Some c', add_events world0 evs) /\
    List.concat (map pushed_samples [(silence 3, 3); (silence 5, 4)])
    = consumed true evs
      ++ pending (forallb is_callback evs) (stream_buffer c').
Proof.
  apply (X17_stream_consumes_every_sample_once (E := eng [])).
  - apply fresh_reachable.
  - repeat constructor; unfold bounded_push, stepThreshold; cbn; lia.
Defined.
